(** * GeoCaching chaincode: the record lifecycle contract

  A shallow embedding of the Hyperledger Fabric chaincode
  [GeoCacheContract] (package [main]) and of the properties its
  specification states about it.

  - [Sha1], [Hex]: the two library routines [myHash] calls
    (crypto/sha1 as in FIPS 180-4, encoding/hex).
  - [myHash]: the stretched identity commitment.
  - [Stub]: the world state behind [ctx.GetStub()], with [GetState],
    [PutState] and [DelState].
  - [Contract]: the transactions of the current contract.
  - [ContractV2]: the transactions of the earlier revision kept in
    [geo-cache-contract.go]. *)

From Stdlib Require Import ZArith String Ascii List Lia.
From Stdlib Require Import DecimalString DecimalZ DecimalPos.
From stdpp Require Import gmap strings.
Import ListNotations.

Local Open Scope Z_scope.

(** ** crypto/sha1 *)

Module Sha1.

Definition wrap32 (x : Z) : Z := x mod 2 ^ 32.

(** [bits.RotateLeft32]. *)
Definition rotl (n x : Z) : Z :=
  Z.lor (wrap32 (Z.shiftl x n)) (Z.shiftr x (32 - n)).

Definition byte_of_ascii (c : ascii) : Z := Z.of_N (N_of_ascii c).
Definition ascii_of_byte (b : Z) : ascii := ascii_of_N (Z.to_N (b mod 256)).

Definition bytes_of_string (s : string) : list Z :=
  map byte_of_ascii (list_ascii_of_string s).

(** Big-endian bytes of a word, most significant first. *)
Definition be_bytes (n : nat) (x : Z) : list Z :=
  map (fun i => Z.shiftr x (8 * Z.of_nat i) mod 256) (rev (seq 0 n)).

Definition be_word (bs : list Z) : Z :=
  fold_left (fun acc b => Z.lor (Z.shiftl acc 8) b) bs 0.

(** The message, a 1 bit, zeros up to 56 mod 64, the bit length on 8 bytes. *)
Definition pad (msg : list Z) : list Z :=
  let len := Z.of_nat (length msg) in
  msg ++ [128] ++ repeat 0 (Z.to_nat ((55 - len) mod 64)) ++ be_bytes 8 (8 * len).

Fixpoint words (n : nat) (bs : list Z) : list Z :=
  match n with
  | O => []
  | S n' => be_word (firstn 4 bs) :: words n' (skipn 4 bs)
  end.

(** w[t] = rotl 1 (w[t-3] xor w[t-8] xor w[t-14] xor w[t-16]); the
    schedule is kept newest first while it is built. *)
Definition extend (ws : list Z) : list Z :=
  rotl 1 (Z.lxor (Z.lxor (nth 2 ws 0) (nth 7 ws 0))
                 (Z.lxor (nth 13 ws 0) (nth 15 ws 0))) :: ws.

Definition schedule (block : list Z) : list Z :=
  rev (Nat.iter 64 extend (rev (words 16 block))).

Record digest := Digest { h0 : Z; h1 : Z; h2 : Z; h3 : Z; h4 : Z }.

Definition init : digest :=
  Digest 0x67452301 0xEFCDAB89 0x98BADCFE 0x10325476 0xC3D2E1F0.

Definition f (t : nat) (b c d : Z) : Z :=
  if (t <? 20)%nat then Z.lor (Z.land b c) (Z.land (Z.lxor b 0xFFFFFFFF) d)
  else if (t <? 40)%nat then Z.lxor (Z.lxor b c) d
  else if (t <? 60)%nat then
    Z.lor (Z.lor (Z.land b c) (Z.land b d)) (Z.land c d)
  else Z.lxor (Z.lxor b c) d.

Definition K (t : nat) : Z :=
  if (t <? 20)%nat then 0x5A827999
  else if (t <? 40)%nat then 0x6ED9EBA1
  else if (t <? 60)%nat then 0x8F1BBCDC
  else 0xCA62C1D6.

Definition round (st : digest) (tw : nat * Z) : digest :=
  let '(t, w) := tw in
  let 'Digest a b c d e := st in
  Digest (wrap32 (rotl 5 a + f t b c d + e + w + K t)) a (rotl 30 b) c d.

Definition block (h : digest) (bs : list Z) : digest :=
  let ws := schedule bs in
  let r := fold_left round (combine (seq 0 80) ws) h in
  Digest (wrap32 (h0 h + h0 r)) (wrap32 (h1 h + h1 r)) (wrap32 (h2 h + h2 r))
         (wrap32 (h3 h + h3 r)) (wrap32 (h4 h + h4 r)).

Fixpoint blocks (n : nat) (h : digest) (bs : list Z) : digest :=
  match n with
  | O => h
  | S n' => blocks n' (block h (firstn 64 bs)) (skipn 64 bs)
  end.

Definition sum (msg : list Z) : digest :=
  let p := pad msg in blocks (length p / 64) init p.

Definition digest_bytes (d : digest) : list Z :=
  be_bytes 4 (h0 d) ++ be_bytes 4 (h1 d) ++ be_bytes 4 (h2 d)
  ++ be_bytes 4 (h3 d) ++ be_bytes 4 (h4 d).

Definition string_of_bytes (bs : list Z) : string :=
  string_of_list_ascii (map ascii_of_byte bs).

(** [h := sha1.New(); h.Write([]byte(s)); string(h.Sum(nil))]. *)
Definition sha1 (s : string) : string :=
  string_of_bytes (digest_bytes (sum (bytes_of_string s))).

(** The five words of a digest are 32-bit words; read in base 2^32 they
    number the digest. *)
Definition in_range (d : digest) : Prop :=
  0 <= h0 d < 2 ^ 32 /\ 0 <= h1 d < 2 ^ 32 /\ 0 <= h2 d < 2 ^ 32
  /\ 0 <= h3 d < 2 ^ 32 /\ 0 <= h4 d < 2 ^ 32.

Definition digest_code (d : digest) : Z :=
  (((h0 d * 2 ^ 32 + h1 d) * 2 ^ 32 + h2 d) * 2 ^ 32 + h3 d) * 2 ^ 32 + h4 d.

End Sha1.

(** ** encoding/hex *)

Module Hex.

Definition hextable : string := "0123456789abcdef".

Definition digit (n : Z) : ascii :=
  match String.get (Z.to_nat n) hextable with
  | Some c => c
  | None => "0"%char
  end.

(** [hex.EncodeToString]: two lower-case digits per byte. *)
Fixpoint EncodeToString (s : string) : string :=
  match s with
  | EmptyString => EmptyString
  | String c s' =>
      let b := Sha1.byte_of_ascii c in
      String (digit (b / 16)) (String (digit (b mod 16)) (EncodeToString s'))
  end.

End Hex.

(** ** The identity commitment *)

(** The loop of [myHash]: [n := 1; for n < 100 { s = sha1(s); n++ }].
    [fuel] bounds the number of iterations the model may run. *)
Fixpoint myHash_loop (fuel : nat) (n : Z) (s : string) : string :=
  match fuel with
  | O => s
  | S fuel' =>
      if n <? 100 then myHash_loop fuel' (n + 1) (Sha1.sha1 s) else s
  end.

(** [myHash]: the loop, then [hex.EncodeToString([]byte(s))]. *)
Definition myHash (s : string) : string :=
  Hex.EncodeToString (myHash_loop 100 1 s).

(** The digest behind a commitment: the state the last round ends in. *)
Definition last_digest (s : string) : Sha1.digest :=
  Sha1.sum (Sha1.bytes_of_string (Nat.iter 98 Sha1.sha1 s)).

(** A raw identifier for every length. *)
Fixpoint unary (n : nat) : string :=
  match n with
  | O => EmptyString
  | S n' => String "a" (unary n')
  end.

(** [generateRandomString]: eight runes of [letterRunes], each picked by
    [rand.Intn(len(letterRunes))]. The generator is reseeded from the clock
    on every call; [rnd i] stands for its i-th draw after that seeding. *)
Definition letterRunes : string :=
  "0123456789abcdefghijklmnopqrstuvwxyzABCDEFGHIJKLMNOPQRSTUVWXYZ".

Definition rune_at (i : nat) : ascii :=
  match String.get (i mod String.length letterRunes) letterRunes with
  | Some c => c
  | None => "0"%char
  end.

Definition generateRandomString (rnd : nat -> nat) : string :=
  string_of_list_ascii (map (fun i => rune_at (rnd i)) (seq 0 8)).

(** ** The world state *)

(** Go's [error]: [None] is [nil]. *)
Abbreviation error := (option string).

(** [fmt.Errorf] with the formats the contract uses. *)
Definition Errorf_read (err : string) : string :=
  "Could not read from world state. " +:+ err.
Definition Errorf_exists (id : string) : string :=
  "The asset " +:+ id +:+ " already exists".
Definition Errorf_missing (id : string) : string :=
  "The asset " +:+ id +:+ " does not exist".
Definition Errorf_unmarshal : string :=
  "Could not unmarshal world state data to type GeoCache".
Definition Errorf_owner_update : string := "Only the owner can update a cache!".
Definition Errorf_owner_reports : string := "Only the owner can get the reports!".
Definition Errorf_owner_delete : string := "Only the owner can delete a cache!".
Definition Errorf_range : string := "You are not in the cache's location range!".

(** A write the contract asked the stub for. *)
Inductive call : Type :=
| PutStateCall (key : string) (value : string)
| DelStateCall (key : string).

(** What stands behind [ctx.GetStub()]: the key-value world state, whether
    the ledger refuses a read, a write or a delete of a key (and with which
    message), and the writes asked for so far, oldest first. A value is a
    byte string; a key that is not bound reads as [nil]. *)
Record Stub : Type := mkStub {
  state : gmap string string;
  get_err : string -> error;
  put_err : string -> error;
  del_err : string -> error;
  calls : list call
}.

(** Transactions run against the stub: a computation takes the stub and
    returns its result with the stub it leaves. *)
Definition Tx (A : Type) : Type := Stub -> A * Stub.

Definition ret {A : Type} (a : A) : Tx A := fun s => (a, s).

Definition bind {A B : Type} (m : Tx A) (k : A -> Tx B) : Tx B :=
  fun s => let (a, s') := m s in k a s'.

Notation "'let*' x ':=' c1 'in' c2" := (bind c1 (fun x => c2))
  (at level 10, x name, c1 at level 100, c2 at level 200, only parsing).
Notation "'let*' ' pat ':=' c1 'in' c2" :=
  (bind c1 (fun x => match x with pat => c2 end))
  (at level 10, pat pattern, c1 at level 100, c2 at level 200, only parsing).

(** [GetState(key) ([]byte, error)]. *)
Definition GetState (key : string) : Tx (option string * error) :=
  fun s =>
    match get_err s key with
    | Some e => ((None, Some e), s)
    | None => ((state s !! key, None), s)
    end.

(** [PutState(key, value) error]. *)
Definition PutState (key value : string) : Tx error :=
  fun s =>
    let log := calls s ++ [PutStateCall key value] in
    match put_err s key with
    | Some e => (Some e, mkStub (state s) (get_err s) (put_err s) (del_err s) log)
    | None =>
        (None, mkStub (<[key := value]> (state s))
                 (get_err s) (put_err s) (del_err s) log)
    end.

(** [DelState(key) error]. *)
Definition DelState (key : string) : Tx error :=
  fun s =>
    let log := calls s ++ [DelStateCall key] in
    match del_err s key with
    | Some e => (Some e, mkStub (state s) (get_err s) (put_err s) (del_err s) log)
    | None =>
        (None, mkStub (delete key (state s))
                 (get_err s) (put_err s) (del_err s) log)
    end.

(** encoding/json for a record type: [json.Marshal] never fails on the
    records of the contract, [json.Unmarshal] fails on bytes that are not a
    record, and reads back what [json.Marshal] wrote. *)
Class JsonCodec (A : Type) : Type := {
  json_Marshal : A -> string;
  json_Unmarshal : string -> option A;
  json_Unmarshal_Marshal : forall a, json_Unmarshal (json_Marshal a) = Some a
}.

(** [json.Unmarshal(bytes, geoCache)] on what [GetState] returned; [nil]
    bytes are an error. *)
Definition Unmarshal {A : Type} `{JsonCodec A} (bytes : option string) : option A :=
  match bytes with
  | Some b => json_Unmarshal b
  | None => None
  end.

(** The record persisted under [key], as a reader decodes it. *)
Definition stored {A : Type} `{JsonCodec A} (s : Stub) (key : string) : option A :=
  Unmarshal (state s !! key).

(** [GeoCacheExists], the same in every revision of the contract. *)
Definition GeoCacheExists (geoCacheID : string) : Tx (bool * error) :=
  let* '(data, err) := GetState geoCacheID in
  match err with
  | Some e => ret (false, Some e)
  | None => ret (match data with Some _ => true | None => false end, None)
  end.

(** ** encoding/json on the records of the contract *)

(** The text [json.Marshal] writes for a struct without tags: the fields in
    declaration order under their own names, strings quoted, integers in
    decimal, arrays and slices in brackets. Printers take the text that
    follows; parsers return the value read and the text left. Of the string
    escapes only the two every JSON reader needs, for the quote and the
    backslash, are modelled. *)
Module Json.

Definition quote : ascii := ascii_of_nat 34.
Definition backslash : ascii := ascii_of_nat 92.

Definition escaped (c : ascii) : bool :=
  Ascii.eqb c quote || Ascii.eqb c backslash.

Fixpoint emit_chars (s k : string) : string :=
  match s with
  | EmptyString => String quote k
  | String c s' =>
      if escaped c then String backslash (String c (emit_chars s' k))
      else String c (emit_chars s' k)
  end.

Definition emit_string (s k : string) : string := String quote (emit_chars s k).

Definition emit_int (z : Z) (k : string) : string :=
  NilZero.string_of_int (Z.to_int z) +:+ k.

Definition emit_range (r : Z * Z) (k : string) : string :=
  String "[" (emit_int (fst r) (String "," (emit_int (snd r) (String "]" k)))).

(** ["name":] *)
Definition emit_key (name k : string) : string :=
  String quote (name +:+ String quote (String ":" k)).

Fixpoint emit_elems {A : Type} (emit : A -> string -> string) (l : list A)
    (k : string) : string :=
  match l with
  | [] => String "]" k
  | x :: l' =>
      match l' with
      | [] => emit x (String "]" k)
      | _ :: _ => emit x (String "," (emit_elems emit l' k))
      end
  end.

Definition emit_list {A : Type} (emit : A -> string -> string) (l : list A)
    (k : string) : string :=
  String "[" (emit_elems emit l k).

Abbreviation parser A := (string -> option (A * string)).

Fixpoint expect (lit inp : string) : option string :=
  match lit with
  | EmptyString => Some inp
  | String c lit' =>
      match inp with
      | String d inp' => if Ascii.eqb c d then expect lit' inp' else None
      | EmptyString => None
      end
  end.

Definition expect_key (name inp : string) : option string :=
  inp ← expect (String quote EmptyString) inp;
  inp ← expect name inp;
  inp ← expect (String quote EmptyString) inp;
  expect ":" inp.

Fixpoint parse_chars (inp : string) : option (string * string) :=
  match inp with
  | EmptyString => None
  | String c r =>
      if Ascii.eqb c quote then Some (EmptyString, r)
      else if Ascii.eqb c backslash then
        match r with
        | String d r' =>
            match parse_chars r' with
            | Some (s, rest) => Some (String d s, rest)
            | None => None
            end
        | EmptyString => None
        end
      else
        match parse_chars r with
        | Some (s, rest) => Some (String c s, rest)
        | None => None
        end
  end.

Definition parse_string : parser string :=
  fun inp => inp ← expect (String quote EmptyString) inp; parse_chars inp.

Definition is_num (c : ascii) : bool :=
  Ascii.eqb c "-" || (Ascii.leb "0" c && Ascii.leb c "9").

(** The longest prefix made of a sign and digits, and what follows it. *)
Fixpoint span_num (inp : string) : string * string :=
  match inp with
  | EmptyString => (EmptyString, EmptyString)
  | String c r =>
      if is_num c then let (a, b) := span_num r in (String c a, b)
      else (EmptyString, inp)
  end.

Definition parse_int : parser Z :=
  fun inp =>
    let (digits, rest) := span_num inp in
    d ← NilZero.int_of_string digits; Some (Z.of_int d, rest).

Definition parse_range : parser (Z * Z) :=
  fun inp =>
    inp ← expect "[" inp;
    '(a, inp) ← parse_int inp;
    inp ← expect "," inp;
    '(b, inp) ← parse_int inp;
    inp ← expect "]" inp;
    Some ((a, b), inp).

Fixpoint parse_elems {A : Type} (p : parser A) (fuel : nat) (inp : string)
    : option (list A * string) :=
  match fuel with
  | O => None
  | S fuel' =>
      '(x, rest) ← p inp;
      match rest with
      | String c r =>
          if Ascii.eqb c "," then
            '(l, rest') ← parse_elems p fuel' r; Some (x :: l, rest')
          else if Ascii.eqb c "]" then Some ([x], r)
          else None
      | EmptyString => None
      end
  end.

(** No list is longer than the text it is read from. *)
Definition parse_list {A : Type} (p : parser A) : parser (list A) :=
  fun inp =>
    inp ← expect "[" inp;
    match expect "]" inp with
    | Some rest => Some ([], rest)
    | None => parse_elems p (String.length inp) inp
    end.

(** A document is one value and nothing after it. *)
Definition whole {A : Type} (p : parser A) (inp : string) : option A :=
  '(a, rest) ← p inp;
  match rest with
  | EmptyString => Some a
  | String _ _ => None
  end.

(** What may follow a number: neither a sign nor a digit. *)
Definition ends_num (k : string) : Prop :=
  match k with
  | EmptyString => True
  | String c _ => is_num c = false
  end.

Definition all_num (s : string) : Prop :=
  Forall (fun c => is_num c = true) (list_ascii_of_string s).

(** An element printer with its parser: the parser reads the element back,
    the text of an element is never empty and does not start with the
    closing bracket. *)
Record element {A : Type} (emit : A -> string -> string) (p : parser A) : Prop := {
  element_parse : forall x k, p (emit x k) = Some (x, k);
  element_grows : forall x k, (String.length k < String.length (emit x k))%nat;
  element_open : forall x k, expect "]" (emit x k) = None
}.

End Json.

(** ** The current contract *)

Module Contract.

(** Modelled from the spec: the declaration of [User] with its [Salt] field
    is not among the sources (the declaration at hand is the earlier one,
    with [Id] and [Name] only). An identity is a raw identifier, replaced
    in a stored record by its commitment, and the salt stored in clear;
    the field names are the ones the contract and its tests use. *)
Module User.
Record t : Type := mk { Id : string; Name : string; Salt : string }.
Definition new : t := mk "" "" "".
Definition set_Id (v : string) (u : t) : t := mk v (Name u) (Salt u).
Definition set_Salt (v : string) (u : t) : t := mk (Id u) (Name u) v.
End User.

Module Trackable.
Record t : Type := mk { Id : string; Value : string }.
Definition new : t := mk "" "".
Definition set_Id (v : string) (x : t) : t := mk v (Value x).
Definition set_Value (v : string) (x : t) : t := mk (Id x) v.
End Trackable.

Module Report.
Record t : Type := mk { Id : string; Message : string; Notifier : User.t }.
Definition new : t := mk "" "" User.new.
Definition set_Id (v : string) (r : t) : t := mk v (Message r) (Notifier r).
Definition set_Message (v : string) (r : t) : t := mk (Id r) v (Notifier r).
Definition set_Notifier (v : User.t) (r : t) : t := mk (Id r) (Message r) v.
End Report.

(** A [[2]int] range is a pair; Go's [int] values are read as integers, the
    contract only compares them. *)
Module GeoCache.
Record t : Type := mk {
  Id : string;
  Name : string;
  Description : string;
  XcoordRange : Z * Z;
  YcoordRange : Z * Z;
  Owner : User.t;
  Reports : list Report.t;
  Visitors : list User.t;
  Trackable : Trackable.t
}.
(** [new(GeoCache)]: every field at its zero value. *)
Definition new : t := mk "" "" "" (0, 0) (0, 0) User.new [] [] Trackable.new.
Definition set_Name (v : string) (g : t) : t :=
  mk (Id g) v (Description g) (XcoordRange g) (YcoordRange g) (Owner g)
     (Reports g) (Visitors g) (Trackable g).
Definition set_Description (v : string) (g : t) : t :=
  mk (Id g) (Name g) v (XcoordRange g) (YcoordRange g) (Owner g)
     (Reports g) (Visitors g) (Trackable g).
Definition set_XcoordRange (v : Z * Z) (g : t) : t :=
  mk (Id g) (Name g) (Description g) v (YcoordRange g) (Owner g)
     (Reports g) (Visitors g) (Trackable g).
Definition set_YcoordRange (v : Z * Z) (g : t) : t :=
  mk (Id g) (Name g) (Description g) (XcoordRange g) v (Owner g)
     (Reports g) (Visitors g) (Trackable g).
Definition set_Owner (v : User.t) (g : t) : t :=
  mk (Id g) (Name g) (Description g) (XcoordRange g) (YcoordRange g) v
     (Reports g) (Visitors g) (Trackable g).
Definition set_Reports (v : list Report.t) (g : t) : t :=
  mk (Id g) (Name g) (Description g) (XcoordRange g) (YcoordRange g) (Owner g)
     v (Visitors g) (Trackable g).
Definition set_Visitors (v : list User.t) (g : t) : t :=
  mk (Id g) (Name g) (Description g) (XcoordRange g) (YcoordRange g) (Owner g)
     (Reports g) v (Trackable g).
Definition set_Trackable (v : Trackable.t) (g : t) : t :=
  mk (Id g) (Name g) (Description g) (XcoordRange g) (YcoordRange g) (Owner g)
     (Reports g) (Visitors g) v.
End GeoCache.

(** The struct printers and parsers of [json.Marshal] and [json.Unmarshal]. *)
Definition emit_User (u : User.t) (k : string) : string :=
  String "{" (Json.emit_key "Id" (Json.emit_string (User.Id u)
  (String "," (Json.emit_key "Name" (Json.emit_string (User.Name u)
  (String "," (Json.emit_key "Salt" (Json.emit_string (User.Salt u)
  (String "}" k))))))))).

Definition parse_User : Json.parser User.t :=
  fun inp =>
    inp ← Json.expect "{" inp;
    inp ← Json.expect_key "Id" inp; '(id, inp) ← Json.parse_string inp;
    inp ← Json.expect "," inp;
    inp ← Json.expect_key "Name" inp; '(name, inp) ← Json.parse_string inp;
    inp ← Json.expect "," inp;
    inp ← Json.expect_key "Salt" inp; '(salt, inp) ← Json.parse_string inp;
    inp ← Json.expect "}" inp;
    Some (User.mk id name salt, inp).

Definition emit_Trackable (x : Trackable.t) (k : string) : string :=
  String "{" (Json.emit_key "Id" (Json.emit_string (Trackable.Id x)
  (String "," (Json.emit_key "Value" (Json.emit_string (Trackable.Value x)
  (String "}" k)))))).

Definition parse_Trackable : Json.parser Trackable.t :=
  fun inp =>
    inp ← Json.expect "{" inp;
    inp ← Json.expect_key "Id" inp; '(id, inp) ← Json.parse_string inp;
    inp ← Json.expect "," inp;
    inp ← Json.expect_key "Value" inp; '(value, inp) ← Json.parse_string inp;
    inp ← Json.expect "}" inp;
    Some (Trackable.mk id value, inp).

Definition emit_Report (r : Report.t) (k : string) : string :=
  String "{" (Json.emit_key "Id" (Json.emit_string (Report.Id r)
  (String "," (Json.emit_key "Message" (Json.emit_string (Report.Message r)
  (String "," (Json.emit_key "Notifier" (emit_User (Report.Notifier r)
  (String "}" k))))))))).

Definition parse_Report : Json.parser Report.t :=
  fun inp =>
    inp ← Json.expect "{" inp;
    inp ← Json.expect_key "Id" inp; '(id, inp) ← Json.parse_string inp;
    inp ← Json.expect "," inp;
    inp ← Json.expect_key "Message" inp; '(message, inp) ← Json.parse_string inp;
    inp ← Json.expect "," inp;
    inp ← Json.expect_key "Notifier" inp; '(notifier, inp) ← parse_User inp;
    inp ← Json.expect "}" inp;
    Some (Report.mk id message notifier, inp).

Definition emit_GeoCache (g : GeoCache.t) (k : string) : string :=
  String "{" (Json.emit_key "Id" (Json.emit_string (GeoCache.Id g)
  (String "," (Json.emit_key "Name" (Json.emit_string (GeoCache.Name g)
  (String "," (Json.emit_key "Description" (Json.emit_string (GeoCache.Description g)
  (String "," (Json.emit_key "XcoordRange" (Json.emit_range (GeoCache.XcoordRange g)
  (String "," (Json.emit_key "YcoordRange" (Json.emit_range (GeoCache.YcoordRange g)
  (String "," (Json.emit_key "Owner" (emit_User (GeoCache.Owner g)
  (String "," (Json.emit_key "Reports" (Json.emit_list emit_Report (GeoCache.Reports g)
  (String "," (Json.emit_key "Visitors" (Json.emit_list emit_User (GeoCache.Visitors g)
  (String "," (Json.emit_key "Trackable" (emit_Trackable (GeoCache.Trackable g)
  (String "}" k))))))))))))))))))))))))))).

Definition parse_GeoCache : Json.parser GeoCache.t :=
  fun inp =>
    inp ← Json.expect "{" inp;
    inp ← Json.expect_key "Id" inp; '(id, inp) ← Json.parse_string inp;
    inp ← Json.expect "," inp;
    inp ← Json.expect_key "Name" inp; '(name, inp) ← Json.parse_string inp;
    inp ← Json.expect "," inp;
    inp ← Json.expect_key "Description" inp; '(desc, inp) ← Json.parse_string inp;
    inp ← Json.expect "," inp;
    inp ← Json.expect_key "XcoordRange" inp; '(xr, inp) ← Json.parse_range inp;
    inp ← Json.expect "," inp;
    inp ← Json.expect_key "YcoordRange" inp; '(yr, inp) ← Json.parse_range inp;
    inp ← Json.expect "," inp;
    inp ← Json.expect_key "Owner" inp; '(owner, inp) ← parse_User inp;
    inp ← Json.expect "," inp;
    inp ← Json.expect_key "Reports" inp;
    '(reports, inp) ← Json.parse_list parse_Report inp;
    inp ← Json.expect "," inp;
    inp ← Json.expect_key "Visitors" inp;
    '(visitors, inp) ← Json.parse_list parse_User inp;
    inp ← Json.expect "," inp;
    inp ← Json.expect_key "Trackable" inp; '(trackable, inp) ← parse_Trackable inp;
    inp ← Json.expect "}" inp;
    Some (GeoCache.mk id name desc xr yr owner reports visitors trackable, inp).

Definition Marshal_GeoCache (g : GeoCache.t) : string := emit_GeoCache g "".
Definition Unmarshal_GeoCache (bytes : string) : option GeoCache.t :=
  Json.whole parse_GeoCache bytes.

Section Transactions.

Context `{JsonCodec GeoCache.t}.

(** [geoCache.Owner.Id != myHash(user.Id+geoCache.Owner.Salt)]. *)
Definition not_owner (geoCache : GeoCache.t) (user : User.t) : bool :=
  bool_decide (User.Id (GeoCache.Owner geoCache)
               ≠ myHash (User.Id user +:+ User.Salt (GeoCache.Owner geoCache))).

Definition CreateGeoCache (rnd_salt rnd_id : nat -> nat) (user : User.t)
    (geoCacheID name description : string)
    (newXcoordRange newYcoordRange : Z * Z) (trackableValue : string) : Tx error :=
  let* '(exists_, err) := GeoCacheExists geoCacheID in
  match err with
  | Some e => ret (Some (Errorf_read e))
  | None =>
      if exists_ then ret (Some (Errorf_exists geoCacheID))
      else
        let geoCache := GeoCache.new in
        let geoCache := GeoCache.set_Name name geoCache in
        let geoCache := GeoCache.set_Description description geoCache in
        let geoCache := GeoCache.set_XcoordRange newXcoordRange geoCache in
        let geoCache := GeoCache.set_YcoordRange newYcoordRange geoCache in
        let geoCache := GeoCache.set_Owner user geoCache in
        let geoCache :=
          GeoCache.set_Owner
            (User.set_Salt (generateRandomString rnd_salt) (GeoCache.Owner geoCache))
            geoCache in
        let geoCache :=
          GeoCache.set_Owner
            (User.set_Id
               (myHash (User.Id user +:+ User.Salt (GeoCache.Owner geoCache)))
               (GeoCache.Owner geoCache))
            geoCache in
        let geoCache := GeoCache.set_Reports [] geoCache in
        let geoCache := GeoCache.set_Visitors [] geoCache in
        let trackable := Trackable.new in
        let trackable := Trackable.set_Id (generateRandomString rnd_id) trackable in
        let trackable := Trackable.set_Value trackableValue trackable in
        let geoCache := GeoCache.set_Trackable trackable geoCache in
        PutState geoCacheID (json_Marshal geoCache)
  end.

Definition ReadGeoCache (geoCacheId : string) : Tx (option GeoCache.t * error) :=
  let* '(exists_, err) := GeoCacheExists geoCacheId in
  match err with
  | Some e => ret (None, Some (Errorf_read e))
  | None =>
      if negb exists_ then ret (None, Some (Errorf_missing geoCacheId))
      else
        let* '(bytes, _) := GetState geoCacheId in
        match Unmarshal bytes with
        | None => ret (None, Some Errorf_unmarshal)
        | Some geoCache => ret (Some geoCache, None)
        end
  end.

Definition UpdateGeoCache (user : User.t) (geoCacheId newName newDescription : string)
    : Tx error :=
  let* '(exists_, err) := GeoCacheExists geoCacheId in
  match err with
  | Some e => ret (Some (Errorf_read e))
  | None =>
      if negb exists_ then ret (Some (Errorf_missing geoCacheId))
      else
        let* '(bytes, _) := GetState geoCacheId in
        match Unmarshal bytes with
        | None => ret (Some Errorf_unmarshal)
        | Some geoCache =>
            if not_owner geoCache user then ret (Some Errorf_owner_update)
            else
              let geoCache := GeoCache.set_Name newName geoCache in
              let geoCache := GeoCache.set_Description newDescription geoCache in
              PutState geoCacheId (json_Marshal geoCache)
        end
  end.

Definition AddVisitorToGeoCache (user : User.t) (geoCacheId : string)
    (Xcoord Ycoord : Z) : Tx error :=
  let* '(exists_, err) := GeoCacheExists geoCacheId in
  match err with
  | Some e => ret (Some (Errorf_read e))
  | None =>
      if negb exists_ then ret (Some (Errorf_missing geoCacheId))
      else
        let* '(bytes, _) := GetState geoCacheId in
        match Unmarshal bytes with
        | None => ret (Some Errorf_unmarshal)
        | Some geoCache =>
            let Xin := (Xcoord >? fst (GeoCache.XcoordRange geoCache))
                       && (Xcoord <? snd (GeoCache.XcoordRange geoCache)) in
            let Yin := (Ycoord >? fst (GeoCache.YcoordRange geoCache))
                       && (Ycoord <? snd (GeoCache.YcoordRange geoCache)) in
            if negb Xin || negb Yin then ret (Some Errorf_range)
            else
              let geoCache :=
                GeoCache.set_Visitors (GeoCache.Visitors geoCache ++ [user]) geoCache in
              PutState geoCacheId (json_Marshal geoCache)
        end
  end.

(** Returns [&cacheTrackable] together with what [PutState] returned. *)
Definition SwitchTrackable (trackable : Trackable.t) (geoCacheId : string)
    : Tx (option Trackable.t * error) :=
  let* '(exists_, err) := GeoCacheExists geoCacheId in
  match err with
  | Some e => ret (None, Some (Errorf_read e))
  | None =>
      if negb exists_ then ret (None, Some (Errorf_missing geoCacheId))
      else
        let* '(bytes, _) := GetState geoCacheId in
        match Unmarshal bytes with
        | None => ret (None, Some Errorf_unmarshal)
        | Some geoCache =>
            let cacheTrackable := GeoCache.Trackable geoCache in
            let geoCache := GeoCache.set_Trackable trackable geoCache in
            let* err := PutState geoCacheId (json_Marshal geoCache) in
            ret (Some cacheTrackable, err)
        end
  end.

Definition UpdateCoordGeoCache (user : User.t) (geoCacheId : string)
    (newXcoordRange newYcoordRange : Z * Z) : Tx error :=
  let* '(exists_, err) := GeoCacheExists geoCacheId in
  match err with
  | Some e => ret (Some (Errorf_read e))
  | None =>
      if negb exists_ then ret (Some (Errorf_missing geoCacheId))
      else
        let* '(bytes, _) := GetState geoCacheId in
        match Unmarshal bytes with
        | None => ret (Some Errorf_unmarshal)
        | Some geoCache =>
            if not_owner geoCache user then ret (Some Errorf_owner_update)
            else
              let geoCache := GeoCache.set_XcoordRange newXcoordRange geoCache in
              let geoCache := GeoCache.set_YcoordRange newYcoordRange geoCache in
              PutState geoCacheId (json_Marshal geoCache)
        end
  end.

Definition DeleteGeoCache (user : User.t) (geoCacheId : string) : Tx error :=
  let* '(exists_, err) := GeoCacheExists geoCacheId in
  match err with
  | Some e => ret (Some (Errorf_read e))
  | None =>
      if negb exists_ then ret (Some (Errorf_missing geoCacheId))
      else
        let* '(bytes, _) := GetState geoCacheId in
        match Unmarshal bytes with
        | None => ret (Some Errorf_unmarshal)
        | Some geoCache =>
            if not_owner geoCache user then ret (Some Errorf_owner_update)
            else DelState geoCacheId
        end
  end.

Definition ReportGeoCache (rnd_id : nat -> nat) (user : User.t)
    (message geoCacheId : string) : Tx error :=
  let* '(exists_, err) := GeoCacheExists geoCacheId in
  match err with
  | Some e => ret (Some (Errorf_read e))
  | None =>
      if negb exists_ then ret (Some (Errorf_missing geoCacheId))
      else
        let* '(bytes, _) := GetState geoCacheId in
        match Unmarshal bytes with
        | None => ret (Some Errorf_unmarshal)
        | Some geoCache =>
            let report := Report.new in
            let report := Report.set_Id (generateRandomString rnd_id) report in
            let report := Report.set_Message message report in
            let report := Report.set_Notifier user report in
            let geoCache :=
              GeoCache.set_Reports (GeoCache.Reports geoCache ++ [report]) geoCache in
            PutState geoCacheId (json_Marshal geoCache)
        end
  end.

(** A [nil] slice of reports is the empty list. *)
Definition GetReports (user : User.t) (geoCacheId : string)
    : Tx (list Report.t * error) :=
  let* '(exists_, err) := GeoCacheExists geoCacheId in
  match err with
  | Some e => ret ([], Some (Errorf_read e))
  | None =>
      if negb exists_ then ret ([], Some (Errorf_missing geoCacheId))
      else
        let* '(bytes, _) := GetState geoCacheId in
        match Unmarshal bytes with
        | None => ret ([], Some Errorf_unmarshal)
        | Some geoCache =>
            if not_owner geoCache user then ret ([], Some Errorf_owner_reports)
            else ret (GeoCache.Reports geoCache, None)
        end
  end.

End Transactions.

End Contract.

(** ** The earlier revision of the contract

    [geo-cache-contract.go] keeps the contract as it was before the
    identity commitment was introduced: the owner is stored as given, and
    [UpdateGeoCache], [UpdateCoordGeoCache] and [SwitchTrackable] work on
    [new(GeoCache)] instead of the record read from the world state. *)

Module ContractV2.

Module User.
Record t : Type := mk { Id : string; Name : string }.
Definition new : t := mk "" "".
End User.

Module Trackable.
Record t : Type := mk { Id : string; Value : string }.
Definition new : t := mk "" "".
Definition set_Id (v : string) (x : t) : t := mk v (Value x).
Definition set_Value (v : string) (x : t) : t := mk (Id x) v.
End Trackable.

Module Report.
Record t : Type := mk { Id : string; Message : string; Notifier : User.t }.
End Report.

Module GeoCache.
Record t : Type := mk {
  Id : string;
  Name : string;
  Description : string;
  XcoordRange : Z * Z;
  YcoordRange : Z * Z;
  Owner : User.t;
  Reports : list Report.t;
  Visitors : list User.t;
  Trackable : Trackable.t
}.
Definition new : t := mk "" "" "" (0, 0) (0, 0) User.new [] [] Trackable.new.
Definition set_Name (v : string) (g : t) : t :=
  mk (Id g) v (Description g) (XcoordRange g) (YcoordRange g) (Owner g)
     (Reports g) (Visitors g) (Trackable g).
Definition set_Description (v : string) (g : t) : t :=
  mk (Id g) (Name g) v (XcoordRange g) (YcoordRange g) (Owner g)
     (Reports g) (Visitors g) (Trackable g).
Definition set_XcoordRange (v : Z * Z) (g : t) : t :=
  mk (Id g) (Name g) (Description g) v (YcoordRange g) (Owner g)
     (Reports g) (Visitors g) (Trackable g).
Definition set_YcoordRange (v : Z * Z) (g : t) : t :=
  mk (Id g) (Name g) (Description g) (XcoordRange g) v (Owner g)
     (Reports g) (Visitors g) (Trackable g).
Definition set_Owner (v : User.t) (g : t) : t :=
  mk (Id g) (Name g) (Description g) (XcoordRange g) (YcoordRange g) v
     (Reports g) (Visitors g) (Trackable g).
Definition set_Reports (v : list Report.t) (g : t) : t :=
  mk (Id g) (Name g) (Description g) (XcoordRange g) (YcoordRange g) (Owner g)
     v (Visitors g) (Trackable g).
Definition set_Visitors (v : list User.t) (g : t) : t :=
  mk (Id g) (Name g) (Description g) (XcoordRange g) (YcoordRange g) (Owner g)
     (Reports g) v (Trackable g).
Definition set_Trackable (v : Trackable.t) (g : t) : t :=
  mk (Id g) (Name g) (Description g) (XcoordRange g) (YcoordRange g) (Owner g)
     (Reports g) (Visitors g) v.
End GeoCache.

Definition emit_User (u : User.t) (k : string) : string :=
  String "{" (Json.emit_key "Id" (Json.emit_string (User.Id u)
  (String "," (Json.emit_key "Name" (Json.emit_string (User.Name u)
  (String "}" k)))))).

Definition parse_User : Json.parser User.t :=
  fun inp =>
    inp ← Json.expect "{" inp;
    inp ← Json.expect_key "Id" inp; '(id, inp) ← Json.parse_string inp;
    inp ← Json.expect "," inp;
    inp ← Json.expect_key "Name" inp; '(name, inp) ← Json.parse_string inp;
    inp ← Json.expect "}" inp;
    Some (User.mk id name, inp).

Definition emit_Trackable (x : Trackable.t) (k : string) : string :=
  String "{" (Json.emit_key "Id" (Json.emit_string (Trackable.Id x)
  (String "," (Json.emit_key "Value" (Json.emit_string (Trackable.Value x)
  (String "}" k)))))).

Definition parse_Trackable : Json.parser Trackable.t :=
  fun inp =>
    inp ← Json.expect "{" inp;
    inp ← Json.expect_key "Id" inp; '(id, inp) ← Json.parse_string inp;
    inp ← Json.expect "," inp;
    inp ← Json.expect_key "Value" inp; '(value, inp) ← Json.parse_string inp;
    inp ← Json.expect "}" inp;
    Some (Trackable.mk id value, inp).

Definition emit_Report (r : Report.t) (k : string) : string :=
  String "{" (Json.emit_key "Id" (Json.emit_string (Report.Id r)
  (String "," (Json.emit_key "Message" (Json.emit_string (Report.Message r)
  (String "," (Json.emit_key "Notifier" (emit_User (Report.Notifier r)
  (String "}" k))))))))).

Definition parse_Report : Json.parser Report.t :=
  fun inp =>
    inp ← Json.expect "{" inp;
    inp ← Json.expect_key "Id" inp; '(id, inp) ← Json.parse_string inp;
    inp ← Json.expect "," inp;
    inp ← Json.expect_key "Message" inp; '(message, inp) ← Json.parse_string inp;
    inp ← Json.expect "," inp;
    inp ← Json.expect_key "Notifier" inp; '(notifier, inp) ← parse_User inp;
    inp ← Json.expect "}" inp;
    Some (Report.mk id message notifier, inp).

Definition emit_GeoCache (g : GeoCache.t) (k : string) : string :=
  String "{" (Json.emit_key "Id" (Json.emit_string (GeoCache.Id g)
  (String "," (Json.emit_key "Name" (Json.emit_string (GeoCache.Name g)
  (String "," (Json.emit_key "Description" (Json.emit_string (GeoCache.Description g)
  (String "," (Json.emit_key "XcoordRange" (Json.emit_range (GeoCache.XcoordRange g)
  (String "," (Json.emit_key "YcoordRange" (Json.emit_range (GeoCache.YcoordRange g)
  (String "," (Json.emit_key "Owner" (emit_User (GeoCache.Owner g)
  (String "," (Json.emit_key "Reports" (Json.emit_list emit_Report (GeoCache.Reports g)
  (String "," (Json.emit_key "Visitors" (Json.emit_list emit_User (GeoCache.Visitors g)
  (String "," (Json.emit_key "Trackable" (emit_Trackable (GeoCache.Trackable g)
  (String "}" k))))))))))))))))))))))))))).

Definition parse_GeoCache : Json.parser GeoCache.t :=
  fun inp =>
    inp ← Json.expect "{" inp;
    inp ← Json.expect_key "Id" inp; '(id, inp) ← Json.parse_string inp;
    inp ← Json.expect "," inp;
    inp ← Json.expect_key "Name" inp; '(name, inp) ← Json.parse_string inp;
    inp ← Json.expect "," inp;
    inp ← Json.expect_key "Description" inp; '(desc, inp) ← Json.parse_string inp;
    inp ← Json.expect "," inp;
    inp ← Json.expect_key "XcoordRange" inp; '(xr, inp) ← Json.parse_range inp;
    inp ← Json.expect "," inp;
    inp ← Json.expect_key "YcoordRange" inp; '(yr, inp) ← Json.parse_range inp;
    inp ← Json.expect "," inp;
    inp ← Json.expect_key "Owner" inp; '(owner, inp) ← parse_User inp;
    inp ← Json.expect "," inp;
    inp ← Json.expect_key "Reports" inp;
    '(reports, inp) ← Json.parse_list parse_Report inp;
    inp ← Json.expect "," inp;
    inp ← Json.expect_key "Visitors" inp;
    '(visitors, inp) ← Json.parse_list parse_User inp;
    inp ← Json.expect "," inp;
    inp ← Json.expect_key "Trackable" inp; '(trackable, inp) ← parse_Trackable inp;
    inp ← Json.expect "}" inp;
    Some (GeoCache.mk id name desc xr yr owner reports visitors trackable, inp).

Definition Marshal_GeoCache (g : GeoCache.t) : string := emit_GeoCache g "".
Definition Unmarshal_GeoCache (bytes : string) : option GeoCache.t :=
  Json.whole parse_GeoCache bytes.

Section Transactions.

Context `{JsonCodec GeoCache.t}.

(** The trackable identifier is drawn from the generator as it stands, without
    reseeding; [rnd i] is its i-th draw. *)
Definition CreateGeoCache (rnd : nat -> nat) (user : User.t)
    (geoCacheID name description : string)
    (newXcoordRange newYcoordRange : Z * Z) : Tx error :=
  let* '(exists_, err) := GeoCacheExists geoCacheID in
  match err with
  | Some e => ret (Some (Errorf_read e))
  | None =>
      if exists_ then ret (Some (Errorf_exists geoCacheID))
      else
        let geoCache := GeoCache.new in
        let geoCache := GeoCache.set_Name name geoCache in
        let geoCache := GeoCache.set_Description description geoCache in
        let geoCache := GeoCache.set_XcoordRange newXcoordRange geoCache in
        let geoCache := GeoCache.set_YcoordRange newYcoordRange geoCache in
        let geoCache := GeoCache.set_Owner user geoCache in
        let geoCache := GeoCache.set_Reports [] geoCache in
        let geoCache := GeoCache.set_Visitors [] geoCache in
        let trackable := Trackable.new in
        let trackable := Trackable.set_Id (generateRandomString rnd) trackable in
        let trackable :=
          Trackable.set_Value "You are the first, who discovered this cache!"
            trackable in
        let geoCache := GeoCache.set_Trackable trackable geoCache in
        PutState geoCacheID (json_Marshal geoCache)
  end.

Definition ReadGeoCache (geoCacheId : string) : Tx (option GeoCache.t * error) :=
  let* '(exists_, err) := GeoCacheExists geoCacheId in
  match err with
  | Some e => ret (None, Some (Errorf_read e))
  | None =>
      if negb exists_ then ret (None, Some (Errorf_missing geoCacheId))
      else
        let* '(bytes, _) := GetState geoCacheId in
        match Unmarshal bytes with
        | None => ret (None, Some Errorf_unmarshal)
        | Some geoCache => ret (Some geoCache, None)
        end
  end.

(** The record is not read: [geoCache := new(GeoCache)]. *)
Definition UpdateGeoCache (userId geoCacheID newName newDescription : string)
    : Tx error :=
  let* '(exists_, err) := GeoCacheExists geoCacheID in
  match err with
  | Some e => ret (Some (Errorf_read e))
  | None =>
      if negb exists_ then ret (Some (Errorf_missing geoCacheID))
      else
        let geoCache := GeoCache.new in
        if bool_decide (User.Id (GeoCache.Owner geoCache) ≠ userId)
        then ret (Some Errorf_owner_update)
        else
          let geoCache := GeoCache.set_Name newName geoCache in
          let geoCache := GeoCache.set_Description newDescription geoCache in
          PutState geoCacheID (json_Marshal geoCache)
  end.

Definition SwitchTrackable (trackable : Trackable.t) (geoCacheId : string)
    : Tx (option Trackable.t * error) :=
  let* '(exists_, err) := GeoCacheExists geoCacheId in
  match err with
  | Some e => ret (None, Some (Errorf_read e))
  | None =>
      if negb exists_ then ret (None, Some (Errorf_missing geoCacheId))
      else
        let geoCache := GeoCache.new in
        let cacheTrackable := GeoCache.Trackable geoCache in
        let geoCache := GeoCache.set_Trackable trackable geoCache in
        let* err := PutState geoCacheId (json_Marshal geoCache) in
        ret (Some cacheTrackable, err)
  end.

(** [newValue] is not used. *)
Definition UpdateCoordGeoCache (geoCacheID newValue : string)
    (newXcoordRange newYcoordRange : Z * Z) : Tx error :=
  let* '(exists_, err) := GeoCacheExists geoCacheID in
  match err with
  | Some e => ret (Some (Errorf_read e))
  | None =>
      if negb exists_ then ret (Some (Errorf_missing geoCacheID))
      else
        let geoCache := GeoCache.new in
        let geoCache := GeoCache.set_XcoordRange newXcoordRange geoCache in
        let geoCache := GeoCache.set_YcoordRange newYcoordRange geoCache in
        PutState geoCacheID (json_Marshal geoCache)
  end.

(** The visit is checked against the record read from the world state, as
    in the current contract. *)
Definition AddVisitorToGeoCache (user : User.t) (geoCacheId : string)
    (Xcoord Ycoord : Z) : Tx error :=
  let* '(exists_, err) := GeoCacheExists geoCacheId in
  match err with
  | Some e => ret (Some (Errorf_read e))
  | None =>
      if negb exists_ then ret (Some (Errorf_missing geoCacheId))
      else
        let* '(bytes, _) := GetState geoCacheId in
        match Unmarshal bytes with
        | None => ret (Some Errorf_unmarshal)
        | Some geoCache =>
            let Xin := (Xcoord >? fst (GeoCache.XcoordRange geoCache))
                       && (Xcoord <? snd (GeoCache.XcoordRange geoCache)) in
            let Yin := (Ycoord >? fst (GeoCache.YcoordRange geoCache))
                       && (Ycoord <? snd (GeoCache.YcoordRange geoCache)) in
            if negb Xin || negb Yin then ret (Some Errorf_range)
            else
              let geoCache :=
                GeoCache.set_Visitors (GeoCache.Visitors geoCache ++ [user]) geoCache in
              PutState geoCacheId (json_Marshal geoCache)
        end
  end.

(** The owner is looked up in [new(GeoCache)]. *)
Definition DeleteGeoCache (user : User.t) (geoCacheID : string) : Tx error :=
  let* '(exists_, err) := GeoCacheExists geoCacheID in
  match err with
  | Some e => ret (Some (Errorf_read e))
  | None =>
      if negb exists_ then ret (Some (Errorf_missing geoCacheID))
      else
        let geoCache := GeoCache.new in
        if bool_decide (User.Id (GeoCache.Owner geoCache) ≠ User.Id user)
        then ret (Some Errorf_owner_delete)
        else DelState geoCacheID
  end.

(** The report is appended to the reports of [new(GeoCache)]; its [Id] is
    left empty. *)
Definition ReportGeoCache (user : User.t) (message geoCacheID : string) : Tx error :=
  let* '(exists_, err) := GeoCacheExists geoCacheID in
  match err with
  | Some e => ret (Some (Errorf_read e))
  | None =>
      if negb exists_ then ret (Some (Errorf_missing geoCacheID))
      else
        let report := Report.mk "" message user in
        let geoCache := GeoCache.new in
        let geoCache :=
          GeoCache.set_Reports (GeoCache.Reports geoCache ++ [report]) geoCache in
        PutState geoCacheID (json_Marshal geoCache)
  end.

End Transactions.

End ContractV2.

(** ** The first revision of the contract

    [geo-cache-contract.go] also keeps the contract as it started: a record
    is a value and two ranges, there is no owner, and it is the read that is
    geofenced. *)

Module ContractV1.

Module GeoCache.
Record t : Type := mk { Value : string; XcoordRange : Z * Z; YcoordRange : Z * Z }.
Definition new : t := mk "" (0, 0) (0, 0).
Definition set_Value (v : string) (g : t) : t := mk v (XcoordRange g) (YcoordRange g).
Definition set_XcoordRange (v : Z * Z) (g : t) : t := mk (Value g) v (YcoordRange g).
Definition set_YcoordRange (v : Z * Z) (g : t) : t := mk (Value g) (XcoordRange g) v.
End GeoCache.

(** The field [Value] is tagged [json:"value"]. *)
Definition emit_GeoCache (g : GeoCache.t) (k : string) : string :=
  String "{" (Json.emit_key "value" (Json.emit_string (GeoCache.Value g)
  (String "," (Json.emit_key "XcoordRange" (Json.emit_range (GeoCache.XcoordRange g)
  (String "," (Json.emit_key "YcoordRange" (Json.emit_range (GeoCache.YcoordRange g)
  (String "}" k))))))))).

Definition parse_GeoCache : Json.parser GeoCache.t :=
  fun inp =>
    inp ← Json.expect "{" inp;
    inp ← Json.expect_key "value" inp; '(value, inp) ← Json.parse_string inp;
    inp ← Json.expect "," inp;
    inp ← Json.expect_key "XcoordRange" inp; '(xr, inp) ← Json.parse_range inp;
    inp ← Json.expect "," inp;
    inp ← Json.expect_key "YcoordRange" inp; '(yr, inp) ← Json.parse_range inp;
    inp ← Json.expect "}" inp;
    Some (GeoCache.mk value xr yr, inp).

Definition Marshal_GeoCache (g : GeoCache.t) : string := emit_GeoCache g "".
Definition Unmarshal_GeoCache (bytes : string) : option GeoCache.t :=
  Json.whole parse_GeoCache bytes.

Section Transactions.

Context `{JsonCodec GeoCache.t}.

Definition CreateGeoCache (geoCacheID value : string)
    (newXcoordRange newYcoordRange : Z * Z) : Tx error :=
  let* '(exists_, err) := GeoCacheExists geoCacheID in
  match err with
  | Some e => ret (Some (Errorf_read e))
  | None =>
      if exists_ then ret (Some (Errorf_exists geoCacheID))
      else
        let geoCache := GeoCache.new in
        let geoCache := GeoCache.set_Value value geoCache in
        let geoCache := GeoCache.set_XcoordRange newXcoordRange geoCache in
        let geoCache := GeoCache.set_YcoordRange newYcoordRange geoCache in
        PutState geoCacheID (json_Marshal geoCache)
  end.

(** The read takes the position of the reader. *)
Definition ReadGeoCache (geoCacheID : string) (Xcoord Ycoord : Z)
    : Tx (option GeoCache.t * error) :=
  let* '(exists_, err) := GeoCacheExists geoCacheID in
  match err with
  | Some e => ret (None, Some (Errorf_read e))
  | None =>
      if negb exists_ then ret (None, Some (Errorf_missing geoCacheID))
      else
        let* '(bytes, _) := GetState geoCacheID in
        match Unmarshal bytes with
        | None => ret (None, Some Errorf_unmarshal)
        | Some geoCache =>
            let Xin := (Xcoord >? fst (GeoCache.XcoordRange geoCache))
                       && (Xcoord <? snd (GeoCache.XcoordRange geoCache)) in
            let Yin := (Ycoord >? fst (GeoCache.YcoordRange geoCache))
                       && (Ycoord <? snd (GeoCache.YcoordRange geoCache)) in
            if negb Xin || negb Yin then ret (None, Some Errorf_range)
            else ret (Some geoCache, None)
        end
  end.

Definition UpdateGeoCache (geoCacheID newValue : string) : Tx error :=
  let* '(exists_, err) := GeoCacheExists geoCacheID in
  match err with
  | Some e => ret (Some (Errorf_read e))
  | None =>
      if negb exists_ then ret (Some (Errorf_missing geoCacheID))
      else
        let geoCache := GeoCache.new in
        let geoCache := GeoCache.set_Value newValue geoCache in
        PutState geoCacheID (json_Marshal geoCache)
  end.

(** [newValue] is not used. *)
Definition UpdateCoordGeoCache (geoCacheID newValue : string)
    (newXcoordRange newYcoordRange : Z * Z) : Tx error :=
  let* '(exists_, err) := GeoCacheExists geoCacheID in
  match err with
  | Some e => ret (Some (Errorf_read e))
  | None =>
      if negb exists_ then ret (Some (Errorf_missing geoCacheID))
      else
        let geoCache := GeoCache.new in
        let geoCache := GeoCache.set_XcoordRange newXcoordRange geoCache in
        let geoCache := GeoCache.set_YcoordRange newYcoordRange geoCache in
        PutState geoCacheID (json_Marshal geoCache)
  end.

Definition DeleteGeoCache (geoCacheID : string) : Tx error :=
  let* '(exists_, err) := GeoCacheExists geoCacheID in
  match err with
  | Some e => ret (Some (Errorf_read e))
  | None =>
      if negb exists_ then ret (Some (Errorf_missing geoCacheID))
      else DelState geoCacheID
  end.

End Transactions.

(** The geofence of a record of the first revision. *)
Definition inside (g : GeoCache.t) (x y : Z) : Prop :=
  fst (GeoCache.XcoordRange g) < x < snd (GeoCache.XcoordRange g)
  /\ fst (GeoCache.YcoordRange g) < y < snd (GeoCache.YcoordRange g).

End ContractV1.

(** ** The service over the contract *)

Section Service.

Context `{JsonCodec Contract.GeoCache.t}.

(** [fmt.Errorf(format).Error()] for a format given without operands: what
    the formatter makes of the text of an error. *)
Variable fmt_Errorf : string -> string.

(** Both calls of [LogUserInCache] are handed the one [ctx], so they run in
    one invocation, and within an invocation [GetState] does not return what
    the invocation itself has written: it answers from the world state as the
    invocation found it (the stub of the tests answers a key with the same
    bytes at every call). [same_invocation s0 s] is the stub a later call of
    the invocation works on, [s0] being the stub the invocation started on and
    [s] the stub the earlier calls left: the reads are those of [s0], the
    log of writes goes on from that of [s]. *)
Definition same_invocation (s0 s : Stub) : Stub :=
  mkStub (state s0) (get_err s) (put_err s) (del_err s) (calls s).

(** [LogUserInCache]: the visit, then the exchange of trackables, in one
    invocation. Both calls write the key [cacheId] and nothing else, and of
    two writes of a key the later one is kept, so the world state the
    invocation leaves is the one it found with the write of the exchange. *)
Definition LogUserInCache (user : Contract.User.t) (cacheId : string)
    (Xcoord Ycoord : Z) (trackable : Contract.Trackable.t)
    : Tx (option Contract.Trackable.t * error) :=
  fun s0 =>
    (let* err := Contract.AddVisitorToGeoCache user cacheId Xcoord Ycoord in
     match err with
     | Some e => ret (None, Some (fmt_Errorf e))
     | None =>
         let* '(newTrackable, err2) :=
           (fun s => Contract.SwitchTrackable trackable cacheId (same_invocation s0 s)) in
         match err2 with
         | Some e2 => ret (None, Some (fmt_Errorf e2))
         | None => ret (newTrackable, None)
         end
     end) s0.

End Service.

(** ** What a transaction may touch *)

Definition call_key (c : call) : string :=
  match c with
  | PutStateCall key _ => key
  | DelStateCall key => key
  end.

(** A computation that leaves the stub as it found it. *)
Definition reads_only {A : Type} (m : Tx A) : Prop :=
  forall s, snd (m s) = s.

(** A computation that asks the ledger for at most one write, on [key], and
    leaves every other key, and what the ledger refuses, as they were; when it
    asks for none the stub is as it found it. *)
Definition writes_at_most {A : Type} (key : string) (m : Tx A) : Prop :=
  forall s,
    let s' := snd (m s) in
    get_err s' = get_err s /\ put_err s' = put_err s /\ del_err s' = del_err s
    /\ (forall key', key' <> key -> state s' !! key' = state s !! key')
    /\ (s' = s \/ exists c, calls s' = calls s ++ [c] /\ call_key c = key).

(** What the transactions of the current contract keep of a record: its
    owner, and the visitors and reports it had, in front and in order. *)
Definition kept (g g' : Contract.GeoCache.t) : Prop :=
  Contract.GeoCache.Owner g' = Contract.GeoCache.Owner g
  /\ Contract.GeoCache.Visitors g `prefix_of` Contract.GeoCache.Visitors g'
  /\ Contract.GeoCache.Reports g `prefix_of` Contract.GeoCache.Reports g'.

(** ** Scenarios *)

(** The report a [ReportGeoCache] call files. *)
Definition report_of (sub : (nat -> nat) * Contract.User.t * string)
    : Contract.Report.t :=
  let '(rnd, user, message) := sub in
  Contract.Report.mk (generateRandomString rnd) message user.


(** [key] holds the record [g]: the ledger serves the read of [key] and the
    bytes under it decode to [g]. *)
Definition holds {A : Type} `{JsonCodec A} (s : Stub) (key : string) (g : A) : Prop :=
  get_err s key = None /\ stored s key = Some g.

(** The geofence of a record, as the specification words it. *)
Definition inside (g : Contract.GeoCache.t) (x y : Z) : Prop :=
  fst (Contract.GeoCache.XcoordRange g) < x < snd (Contract.GeoCache.XcoordRange g)
  /\ fst (Contract.GeoCache.YcoordRange g) < y < snd (Contract.GeoCache.YcoordRange g).

(** The record [CreateGeoCache] builds: the owner's identifier replaced by
    its commitment under the fresh salt, no report, no visitor. *)
Definition created (rnd_salt rnd_id : nat -> nat) (user : Contract.User.t)
    (name description : string) (xRange yRange : Z * Z) (trackableValue : string)
    : Contract.GeoCache.t :=
  let salt := generateRandomString rnd_salt in
  Contract.GeoCache.mk "" name description xRange yRange
    (Contract.User.mk (myHash (Contract.User.Id user +:+ salt))
       (Contract.User.Name user) salt)
    [] []
    (Contract.Trackable.mk (generateRandomString rnd_id) trackableValue).

(** An empty ledger that refuses nothing. *)
Definition empty_stub : Stub :=
  mkStub ∅ (fun _ => None) (fun _ => None) (fun _ => None) [].

(** * Properties *)

(** ** The identity commitment *)

Example sha1_abc :
  Hex.EncodeToString (Sha1.sha1 "abc") = "a9993e364706816aba3e25717850c26c9cd0d89d".
Proof. vm_compute. reflexivity. Qed.

Example sha1_two_blocks :
  Hex.EncodeToString
    (Sha1.sha1 "abcdbcdecdefdefgefghfghighijhijkijkljklmklmnlmnomnopnopq")
  = "84983e441c3bd26ebaae4aa1f95129e5e54670f1".
Proof. vm_compute. reflexivity. Qed.

(** The commitment the tests store for the identifier 123 under the salt 123. *)
Example myHash_fixture :
  myHash ("123" +:+ "123") = "4ebe56ee0099cc1af664ad67b3410c2b0a18cfba".
Proof. vm_compute. reflexivity. Qed.

Lemma myHash_loop_iter (m fuel : nat) (n : Z) (s : string) :
  n = 100 - Z.of_nat m -> (m <= fuel)%nat ->
  myHash_loop fuel n s = Nat.iter m Sha1.sha1 s.
Proof.
  revert fuel n s. induction m as [|m IH]; intros fuel n s Hn Hfuel.
  - subst n. destruct fuel; reflexivity.
  - destruct fuel as [|fuel]; [lia|]. cbn [myHash_loop].
    replace (n <? 100) with true by (symmetry; apply Z.ltb_lt; lia).
    rewrite IH by lia. symmetry. apply Nat.iter_succ_r.
Qed.

(** C3 (as amended): the commitment of [s] is the hex encoding of SHA-1
    applied to its own previous output 99 times in all, starting from [s];
    the loop leaves on its guard, whatever fuel above 99 it is given. *)
Theorem myHash_rounds (s : string) :
  myHash s = Hex.EncodeToString (Nat.iter 99 Sha1.sha1 s)
  /\ forall fuel, (99 <= fuel)%nat -> myHash_loop fuel 1 s = Nat.iter 99 Sha1.sha1 s.
Proof.
  split.
  - unfold myHash. rewrite (myHash_loop_iter 99) by lia. reflexivity.
  - intros fuel Hfuel. apply myHash_loop_iter; lia.
Qed.

(** C3 as stated fails: on the input of the tests, a hundredth round gives
    another commitment. *)
Lemma myHash_not_100_rounds :
  myHash "123123" <> Hex.EncodeToString (Nat.iter 100 Sha1.sha1 "123123").
Proof. vm_compute. discriminate. Qed.

Lemma wrap32_range (x : Z) : 0 <= Sha1.wrap32 x < 2 ^ 32.
Proof. unfold Sha1.wrap32. apply Z.mod_pos_bound. lia. Qed.

Lemma init_in_range : Sha1.in_range Sha1.init.
Proof. unfold Sha1.in_range, Sha1.init; simpl; lia. Qed.

Lemma block_in_range (h : Sha1.digest) (bs : list Z) : Sha1.in_range (Sha1.block h bs).
Proof. unfold Sha1.in_range, Sha1.block. cbn [Sha1.h0 Sha1.h1 Sha1.h2 Sha1.h3 Sha1.h4]. repeat split; apply wrap32_range. Qed.

Lemma blocks_in_range (n : nat) (h : Sha1.digest) (bs : list Z) :
  Sha1.in_range h -> Sha1.in_range (Sha1.blocks n h bs).
Proof.
  revert h bs. induction n as [|n IH]; intros h bs Hh; [exact Hh|].
  cbn [Sha1.blocks]. apply IH, block_in_range.
Qed.

Lemma sum_in_range (msg : list Z) : Sha1.in_range (Sha1.sum msg).
Proof. unfold Sha1.sum. apply blocks_in_range, init_in_range. Qed.

Lemma digest_code_bound (d : Sha1.digest) : Sha1.in_range d -> 0 <= Sha1.digest_code d < 2 ^ 160.
Proof.
  unfold Sha1.in_range, Sha1.digest_code. destruct d as [a b c e f].
  cbn [Sha1.h0 Sha1.h1 Sha1.h2 Sha1.h3 Sha1.h4]. lia.
Qed.

Lemma digest_code_inj (d d' : Sha1.digest) :
  Sha1.in_range d -> Sha1.in_range d' -> Sha1.digest_code d = Sha1.digest_code d' -> d = d'.
Proof.
  unfold Sha1.in_range, Sha1.digest_code. destruct d as [a b c e f], d' as [a' b' c' e' f'].
  cbn [Sha1.h0 Sha1.h1 Sha1.h2 Sha1.h3 Sha1.h4].
  intros R R' E.
  assert (f = f' /\ e = e' /\ c = c' /\ b = b' /\ a = a') as (-> & -> & -> & -> & ->) by lia.
  reflexivity.
Qed.

(** ** Commitments collide

    A commitment is one of 2^160 digests, raw identifiers are without
    number: among the 2^160 + 1 identifiers [unary 0], [unary 1], ... two
    have the same commitment under any given salt. *)

Lemma bounded_search (f : Z -> Z) (c N : Z) :
  0 <= N ->
  (exists i, 0 <= i < N /\ f i = c) \/ (forall i, 0 <= i < N -> f i <> c).
Proof.
  intros HN. pattern N. apply natlike_ind; [| |exact HN].
  - right. intros i Hi. lia.
  - intros n Hn [(i & Hi & Hfi)|Hnone].
    + left. exists i. split; [lia | exact Hfi].
    + destruct (Z.eq_dec (f n) c) as [Heq|Hne].
      * left. exists n. split; [lia | exact Heq].
      * right. intros i Hi. destruct (Z.eq_dec i n) as [->|Hin]; [exact Hne|].
        apply Hnone. lia.
Qed.

Lemma pigeonhole (N : Z) :
  0 <= N ->
  forall f : Z -> Z,
    (forall i, 0 <= i <= N -> 0 <= f i < N) ->
    exists i j, 0 <= i < j /\ j <= N /\ f i = f j.
Proof.
  intros HN. pattern N. apply natlike_ind; [| |exact HN].
  - intros f Hf. specialize (Hf 0). lia.
  - intros n Hn IH f Hf.
    destruct (bounded_search f (f (n + 1)) (n + 1) ltac:(lia))
      as [(i & Hi & Hfi)|Hnone].
    + exists i, (n + 1). lia.
    + set (c := f (n + 1)) in *.
      destruct (IH (fun i => if f i <? c then f i else f i - 1)) as (i & j & Hij & Hj & E).
      * intros i Hi. pose proof (Hf i ltac:(lia)). pose proof (Hnone i ltac:(lia)).
        pose proof (Hf (n + 1) ltac:(lia)). fold c in H1.
        destruct (Z.ltb_spec (f i) c); lia.
      * exists i, j. repeat split; try lia.
        pose proof (Hnone i ltac:(lia)). pose proof (Hnone j ltac:(lia)).
        destruct (Z.ltb_spec (f i) c), (Z.ltb_spec (f j) c); lia.
Qed.

Lemma unary_length (n : nat) : String.length (unary n) = n.
Proof. induction n as [|n IH]; simpl; [reflexivity | rewrite IH; reflexivity]. Qed.

Lemma unary_inj (n m : nat) : unary n = unary m -> n = m.
Proof. intros E. rewrite <- (unary_length n), <- (unary_length m), E. reflexivity. Qed.

Lemma last_digest_in_range (s : string) : Sha1.in_range (last_digest s).
Proof. apply sum_in_range. Qed.

Lemma myHash_last_digest (s : string) :
  myHash s
  = Hex.EncodeToString (Sha1.string_of_bytes (Sha1.digest_bytes (last_digest s))).
Proof. unfold myHash. rewrite (myHash_loop_iter 99) by lia. reflexivity. Qed.

Lemma myHash_collides (salt : string) :
  exists A B : string, A <> B /\ myHash (A +:+ salt) = myHash (B +:+ salt).
Proof.
  assert (Hpos : 0 <= 2 ^ 160) by (apply Z.pow_nonneg; lia).
  destruct (pigeonhole (2 ^ 160) Hpos
              (fun i => Sha1.digest_code (last_digest (unary (Z.to_nat i) +:+ salt))))
    as (i & j & Hij & Hj & E).
  - intros i _. apply digest_code_bound, last_digest_in_range.
  - exists (unary (Z.to_nat i)), (unary (Z.to_nat j)). split.
    + intros Heq. apply unary_inj in Heq. lia.
    + rewrite !myHash_last_digest. cbv beta in E.
      rewrite (digest_code_inj _ _ (last_digest_in_range _) (last_digest_in_range _) E).
      reflexivity.
Qed.

(** C1 as stated fails: it is not so that under every salt two different
    raw identifiers have different commitments. *)
Lemma myHash_not_injective :
  ~ (forall A B salt : string, A <> B -> myHash (A +:+ salt) <> myHash (B +:+ salt)).
Proof.
  intros Hinj. destruct (myHash_collides "") as (A & B & Hne & Heq).
  exact (Hinj A B "" Hne Heq).
Qed.

(** ** encoding/json reads back what it wrote *)

Module JsonFacts.
Import Json.

Lemma expect_lit (lit k : string) : expect lit (lit +:+ k) = Some k.
Proof.
  induction lit as [|c lit IH]; simpl; [reflexivity|].
  rewrite Ascii.eqb_refl. exact IH.
Qed.

Lemma expect_key_emit (name k : string) : expect_key name (emit_key name k) = Some k.
Proof.
  unfold expect_key, emit_key. simpl. rewrite expect_lit. reflexivity.
Qed.

Lemma parse_chars_emit (s k : string) : parse_chars (emit_chars s k) = Some (s, k).
Proof.
  induction s as [|c s IH]; simpl.
  - reflexivity.
  - destruct (escaped c) eqn:E.
    + simpl. rewrite IH. reflexivity.
    + unfold escaped in E. apply orb_false_iff in E as [E1 E2].
      simpl. rewrite E1, E2, IH. reflexivity.
Qed.

Lemma parse_string_emit (s k : string) : parse_string (emit_string s k) = Some (s, k).
Proof.
  unfold parse_string, emit_string. simpl. apply parse_chars_emit.
Qed.

Lemma span_num_app (d k : string) :
  all_num d -> ends_num k -> span_num (d +:+ k) = (d, k).
Proof.
  unfold all_num. induction d as [|c d IH]; simpl; intros Hd Hk.
  - destruct k as [|c k]; [reflexivity|]. simpl in *. rewrite Hk. reflexivity.
  - inversion Hd as [|? ? Hc Hd']; subst. rewrite Hc, (IH Hd' Hk). reflexivity.
Qed.

Lemma all_num_uint (d : Decimal.uint) : all_num (NilEmpty.string_of_uint d).
Proof.
  unfold all_num. induction d; simpl; constructor; auto.
Qed.

Lemma all_num_int (z : Z) : all_num (NilZero.string_of_int (Z.to_int z)).
Proof.
  destruct z as [|p|p]; simpl.
  - repeat constructor.
  - unfold NilZero.string_of_uint.
    destruct (Pos.to_uint p) eqn:E; try (rewrite <- E; apply all_num_uint).
    repeat constructor.
  - constructor; [reflexivity|].
    unfold NilZero.string_of_uint.
    destruct (Pos.to_uint p) eqn:E; try (rewrite <- E; apply all_num_uint).
    repeat constructor.
Qed.

Lemma int_of_string_to_int (z : Z) :
  NilZero.int_of_string (NilZero.string_of_int (Z.to_int z)) = Some (Z.to_int z).
Proof.
  apply NilZero.isi; destruct z as [|p|p]; simpl; try discriminate;
    intros [= E]; exact (Unsigned.to_uint_nonnil p E).
Qed.

Lemma parse_int_emit (z : Z) (k : string) :
  ends_num k -> parse_int (emit_int z k) = Some (z, k).
Proof.
  intros Hk. unfold parse_int, emit_int.
  rewrite (span_num_app _ _ (all_num_int z) Hk), int_of_string_to_int.
  simpl. rewrite DecimalZ.of_to. reflexivity.
Qed.

Lemma parse_range_emit (r : Z * Z) (k : string) :
  parse_range (emit_range r k) = Some (r, k).
Proof.
  destruct r as [a b]. unfold parse_range, emit_range. simpl.
  rewrite parse_int_emit by reflexivity. simpl.
  rewrite parse_int_emit by reflexivity. reflexivity.
Qed.


Lemma emit_elems_length {A : Type} (emit : A -> string -> string) (p : parser A)
    (l : list A) (k : string) :
  element emit p -> (length l <= String.length (emit_elems emit l k))%nat.
Proof.
  intros E. induction l as [|x l IH]; simpl; [lia|].
  destruct l as [|y l].
  - pose proof (element_grows _ _ E x (String "]" k)). simpl in *. lia.
  - pose proof (element_grows _ _ E x (String "," (emit_elems emit (y :: l) k))).
    simpl String.length in *. simpl length in *. lia.
Qed.

Lemma parse_elems_emit {A : Type} (emit : A -> string -> string) (p : parser A)
    (l : list A) (x : A) (k : string) (fuel : nat) :
  element emit p -> (length (x :: l) <= fuel)%nat ->
  parse_elems p fuel (emit_elems emit (x :: l) k) = Some (x :: l, k).
Proof.
  intros E. revert x fuel. induction l as [|y l IH]; intros x fuel Hfuel.
  - destruct fuel as [|fuel]; [simpl in Hfuel; lia|].
    simpl. rewrite (element_parse _ _ E). reflexivity.
  - destruct fuel as [|fuel]; [simpl in Hfuel; lia|].
    change (emit_elems emit (x :: y :: l) k)
      with (emit x (String "," (emit_elems emit (y :: l) k))).
    cbn [parse_elems]. rewrite (element_parse _ _ E). cbn [mbind option_bind].
    change (Ascii.eqb "," ",") with true. cbv iota.
    rewrite IH by (simpl in *; lia). reflexivity.
Qed.

Lemma parse_list_emit {A : Type} (emit : A -> string -> string) (p : parser A)
    (l : list A) (k : string) :
  element emit p -> parse_list p (emit_list emit l k) = Some (l, k).
Proof.
  intros E. unfold parse_list, emit_list.
  change (expect "[" (String "[" (emit_elems emit l k)))
    with (Some (emit_elems emit l k)).
  cbn [mbind option_bind]. destruct l as [|x l]; [reflexivity|].
  replace (expect "]" (emit_elems emit (x :: l) k)) with (@None string).
  - apply parse_elems_emit; [exact E|]. eapply emit_elems_length; exact E.
  - symmetry. destruct l; simpl emit_elems; apply (element_open _ _ E).
Qed.

Lemma le_String (c : ascii) (x k : string) :
  (String.length k <= String.length x)%nat ->
  (String.length k <= String.length (String c x))%nat.
Proof. simpl. lia. Qed.

Lemma lt_String (c : ascii) (x k : string) :
  (String.length k <= String.length x)%nat ->
  (String.length k < String.length (String c x))%nat.
Proof. simpl. lia. Qed.

Lemma le_emit_key (name x k : string) :
  (String.length k <= String.length x)%nat ->
  (String.length k <= String.length (emit_key name x))%nat.
Proof.
  intros Hk. unfold emit_key. apply le_String.
  induction name as [|c name IH]; simpl; lia.
Qed.

Lemma emit_chars_length (s k : string) :
  (String.length k < String.length (emit_chars s k))%nat.
Proof.
  induction s as [|c s IH]; simpl; [lia|].
  destruct (escaped c); simpl; lia.
Qed.

Lemma emit_string_length (s k : string) :
  (String.length k < String.length (emit_string s k))%nat.
Proof. unfold emit_string. pose proof (emit_chars_length s k). simpl. lia. Qed.


Lemma le_emit_string (s x k : string) :
  (String.length k <= String.length x)%nat ->
  (String.length k <= String.length (emit_string s x))%nat.
Proof. pose proof (emit_string_length s x). lia. Qed.

End JsonFacts.

Arguments Json.parse_list : simpl never.
Arguments Json.emit_list : simpl never.

Arguments Json.parse_range : simpl never.
Arguments Json.emit_range : simpl never.
Arguments Json.parse_string : simpl never.
Arguments Json.emit_string : simpl never.

Create Rewrite HintDb json.
#[export] Hint Rewrite JsonFacts.parse_string_emit JsonFacts.parse_range_emit : json.

Ltac json_roundtrip :=
  repeat (simpl; progress autorewrite with json); simpl; try reflexivity.

Ltac json_grows :=
  repeat lazymatch goal with
         | |- (_ <= String.length (Json.emit_key _ _))%nat =>
             apply JsonFacts.le_emit_key
         | |- (_ <= String.length (Json.emit_string _ _))%nat =>
             apply JsonFacts.le_emit_string
         | |- (_ <= String.length (String _ _))%nat => apply JsonFacts.le_String
         end;
  try apply Nat.le_refl.

Module ContractJson.
Import Contract.

Lemma parse_User_emit (u : User.t) (k : string) :
  parse_User (emit_User u k) = Some (u, k).
Proof. destruct u. unfold parse_User, emit_User. json_roundtrip. Qed.

#[export] Hint Rewrite parse_User_emit : json.
Arguments emit_User : simpl never.
Arguments parse_User : simpl never.

Lemma le_emit_User (u : User.t) (x k : string) :
  (String.length k <= String.length x)%nat ->
  (String.length k <= String.length (emit_User u x))%nat.
Proof. intros Hk. unfold emit_User. json_grows. exact Hk. Qed.

Lemma element_User : Json.element emit_User parse_User.
Proof.
  split.
  - apply parse_User_emit.
  - intros u k. unfold emit_User. apply JsonFacts.lt_String. json_grows.
  - reflexivity.
Qed.

Lemma parse_Trackable_emit (x : Trackable.t) (k : string) :
  parse_Trackable (emit_Trackable x k) = Some (x, k).
Proof. destruct x. unfold parse_Trackable, emit_Trackable. json_roundtrip. Qed.

#[export] Hint Rewrite parse_Trackable_emit : json.
Arguments emit_Trackable : simpl never.
Arguments parse_Trackable : simpl never.

Lemma parse_Report_emit (r : Report.t) (k : string) :
  parse_Report (emit_Report r k) = Some (r, k).
Proof.
  destruct r as [id msg u]. unfold parse_Report, emit_Report. json_roundtrip.
Qed.

Lemma element_Report : Json.element emit_Report parse_Report.
Proof.
  split.
  - apply parse_Report_emit.
  - intros r k. unfold emit_Report. apply JsonFacts.lt_String. json_grows.
    apply le_emit_User. json_grows.
  - reflexivity.
Qed.

Lemma parse_Users_emit (l : list User.t) (k : string) :
  Json.parse_list parse_User (Json.emit_list emit_User l k) = Some (l, k).
Proof. apply JsonFacts.parse_list_emit, element_User. Qed.

Lemma parse_Reports_emit (l : list Report.t) (k : string) :
  Json.parse_list parse_Report (Json.emit_list emit_Report l k) = Some (l, k).
Proof. apply JsonFacts.parse_list_emit, element_Report. Qed.

#[export] Hint Rewrite parse_Users_emit parse_Reports_emit : json.

Lemma parse_GeoCache_emit (g : GeoCache.t) (k : string) :
  parse_GeoCache (emit_GeoCache g k) = Some (g, k).
Proof.
  destruct g. unfold parse_GeoCache, emit_GeoCache. json_roundtrip.
Qed.

Lemma Unmarshal_Marshal_GeoCache (g : GeoCache.t) :
  Unmarshal_GeoCache (Marshal_GeoCache g) = Some g.
Proof.
  unfold Unmarshal_GeoCache, Marshal_GeoCache, Json.whole.
  rewrite parse_GeoCache_emit. reflexivity.
Qed.

End ContractJson.

Module ContractV2Json.
Import ContractV2.

Lemma parse_User_emit_v2 (u : User.t) (k : string) :
  parse_User (emit_User u k) = Some (u, k).
Proof. destruct u. unfold parse_User, emit_User. json_roundtrip. Qed.

#[export] Hint Rewrite parse_User_emit_v2 : json.
Arguments emit_User : simpl never.
Arguments parse_User : simpl never.

Lemma le_emit_User_v2 (u : User.t) (x k : string) :
  (String.length k <= String.length x)%nat ->
  (String.length k <= String.length (emit_User u x))%nat.
Proof. intros Hk. unfold emit_User. json_grows. exact Hk. Qed.

Lemma element_User_v2 : Json.element emit_User parse_User.
Proof.
  split.
  - apply parse_User_emit_v2.
  - intros u k. unfold emit_User. apply JsonFacts.lt_String. json_grows.
  - reflexivity.
Qed.

Lemma parse_Trackable_emit_v2 (x : Trackable.t) (k : string) :
  parse_Trackable (emit_Trackable x k) = Some (x, k).
Proof. destruct x. unfold parse_Trackable, emit_Trackable. json_roundtrip. Qed.

#[export] Hint Rewrite parse_Trackable_emit_v2 : json.
Arguments emit_Trackable : simpl never.
Arguments parse_Trackable : simpl never.

Lemma parse_Report_emit_v2 (r : Report.t) (k : string) :
  parse_Report (emit_Report r k) = Some (r, k).
Proof.
  destruct r as [id msg u]. unfold parse_Report, emit_Report. json_roundtrip.
Qed.

Lemma element_Report_v2 : Json.element emit_Report parse_Report.
Proof.
  split.
  - apply parse_Report_emit_v2.
  - intros r k. unfold emit_Report. apply JsonFacts.lt_String. json_grows.
    apply le_emit_User_v2. json_grows.
  - reflexivity.
Qed.

Lemma parse_Users_emit_v2 (l : list User.t) (k : string) :
  Json.parse_list parse_User (Json.emit_list emit_User l k) = Some (l, k).
Proof. apply JsonFacts.parse_list_emit, element_User_v2. Qed.

Lemma parse_Reports_emit_v2 (l : list Report.t) (k : string) :
  Json.parse_list parse_Report (Json.emit_list emit_Report l k) = Some (l, k).
Proof. apply JsonFacts.parse_list_emit, element_Report_v2. Qed.

#[export] Hint Rewrite parse_Users_emit_v2 parse_Reports_emit_v2 : json.

Lemma parse_GeoCache_emit_v2 (g : GeoCache.t) (k : string) :
  parse_GeoCache (emit_GeoCache g k) = Some (g, k).
Proof.
  destruct g. unfold parse_GeoCache, emit_GeoCache. json_roundtrip.
Qed.

Lemma Unmarshal_Marshal_GeoCache_v2 (g : GeoCache.t) :
  Unmarshal_GeoCache (Marshal_GeoCache g) = Some g.
Proof.
  unfold Unmarshal_GeoCache, Marshal_GeoCache, Json.whole.
  rewrite parse_GeoCache_emit_v2. reflexivity.
Qed.

End ContractV2Json.

(** ** The world state *)

Section StubFacts.

Context {A : Type} `{JsonCodec A}.

Lemma GeoCacheExists_absent (s : Stub) (key : string) :
  get_err s key = None -> state s !! key = None ->
  GeoCacheExists key s = ((false, None), s).
Proof.
  intros Hg Hs. unfold GeoCacheExists, bind, GetState, ret. rewrite Hg, Hs.
  reflexivity.
Qed.

Lemma GeoCacheExists_bound (s : Stub) (key bytes : string) :
  get_err s key = None -> state s !! key = Some bytes ->
  GeoCacheExists key s = ((true, None), s).
Proof.
  intros Hg Hs. unfold GeoCacheExists, bind, GetState, ret. rewrite Hg, Hs.
  reflexivity.
Qed.

Lemma holds_bound (s : Stub) (key : string) (g : A) :
  holds s key g ->
  exists bytes, state s !! key = Some bytes /\ json_Unmarshal bytes = Some g.
Proof.
  intros [_ Hs]. unfold stored, Unmarshal in Hs.
  destruct (state s !! key) as [bytes|]; [eauto | discriminate].
Qed.

(** A write the ledger accepts binds the key to the new record. *)
Lemma PutState_accepted (s : Stub) (key : string) (g : A) :
  put_err s key = None ->
  exists s',
    PutState key (json_Marshal g) s = (None, s')
    /\ state s' = <[key := json_Marshal g]> (state s)
    /\ get_err s' = get_err s /\ put_err s' = put_err s /\ del_err s' = del_err s
    /\ calls s' = calls s ++ [PutStateCall key (json_Marshal g)]
    /\ stored s' key = Some g.
Proof.
  intros Hp. unfold PutState. rewrite Hp. eexists. split; [reflexivity|].
  simpl. repeat split.
  unfold stored. simpl. rewrite lookup_insert_eq. simpl.
  apply json_Unmarshal_Marshal.
Qed.

Lemma DelState_accepted (s : Stub) (key : string) :
  del_err s key = None ->
  exists s',
    DelState key s = (None, s')
    /\ state s' = delete key (state s)
    /\ get_err s' = get_err s /\ put_err s' = put_err s /\ del_err s' = del_err s
    /\ calls s' = calls s ++ [DelStateCall key].
Proof.
  intros Hd. unfold DelState. rewrite Hd. eexists. split; [reflexivity|].
  simpl. repeat split.
Qed.

End StubFacts.

(** Runs the prologue every transaction shares (existence check, second
    read, decoding) on a key that holds a record. *)
Ltac run_on Hh :=
  let Hg := fresh "Hget" in
  let bytes := fresh "bytes" in
  let Hb := fresh "Hbytes" in
  let Hu := fresh "Hdecode" in
  pose proof Hh as [Hg _];
  destruct (holds_bound _ _ _ Hh) as (bytes & Hb & Hu);
  unfold bind; rewrite (GeoCacheExists_bound _ _ _ Hg Hb);
  cbn [negb]; unfold GetState at 1; rewrite Hg, Hb;
  cbn [Unmarshal]; rewrite Hu.

(** ** The current contract on a key that holds a record *)

Section ContractFacts.

Import Contract.
Context `{JsonCodec GeoCache.t}.

Lemma ReadGeoCache_holds (s : Stub) (key : string) (g : GeoCache.t) :
  holds s key g -> ReadGeoCache key s = ((Some g, None), s).
Proof. intros Hh. unfold ReadGeoCache. run_on Hh. reflexivity. Qed.

Lemma UpdateGeoCache_holds (s : Stub) (key : string) (g : GeoCache.t)
    (user : User.t) (newName newDescription : string) :
  holds s key g ->
  UpdateGeoCache user key newName newDescription s =
    if not_owner g user then (Some Errorf_owner_update, s)
    else PutState key
           (json_Marshal
              (GeoCache.set_Description newDescription (GeoCache.set_Name newName g)))
           s.
Proof.
  intros Hh. unfold UpdateGeoCache. run_on Hh.
  destruct (not_owner g user); reflexivity.
Qed.

Lemma UpdateCoordGeoCache_holds (s : Stub) (key : string) (g : GeoCache.t)
    (user : User.t) (newX newY : Z * Z) :
  holds s key g ->
  UpdateCoordGeoCache user key newX newY s =
    if not_owner g user then (Some Errorf_owner_update, s)
    else PutState key
           (json_Marshal (GeoCache.set_YcoordRange newY (GeoCache.set_XcoordRange newX g)))
           s.
Proof.
  intros Hh. unfold UpdateCoordGeoCache. run_on Hh.
  destruct (not_owner g user); reflexivity.
Qed.

Lemma DeleteGeoCache_holds (s : Stub) (key : string) (g : GeoCache.t)
    (user : User.t) :
  holds s key g ->
  DeleteGeoCache user key s =
    if not_owner g user then (Some Errorf_owner_update, s) else DelState key s.
Proof.
  intros Hh. unfold DeleteGeoCache. run_on Hh.
  destruct (not_owner g user); reflexivity.
Qed.

Lemma GetReports_holds (s : Stub) (key : string) (g : GeoCache.t) (user : User.t) :
  holds s key g ->
  GetReports user key s =
    if not_owner g user then (([], Some Errorf_owner_reports), s)
    else ((GeoCache.Reports g, None), s).
Proof.
  intros Hh. unfold GetReports. run_on Hh.
  destruct (not_owner g user); reflexivity.
Qed.

Lemma ReportGeoCache_holds (s : Stub) (key : string) (g : GeoCache.t)
    (rnd : nat -> nat) (user : User.t) (message : string) :
  holds s key g ->
  ReportGeoCache rnd user message key s =
    PutState key
      (json_Marshal
         (GeoCache.set_Reports (GeoCache.Reports g ++ [report_of (rnd, user, message)]) g))
      s.
Proof. intros Hh. unfold ReportGeoCache. run_on Hh. reflexivity. Qed.

Lemma SwitchTrackable_holds (s : Stub) (key : string) (g : GeoCache.t)
    (trackable : Trackable.t) :
  holds s key g ->
  SwitchTrackable trackable key s =
    let (err, s') := PutState key (json_Marshal (GeoCache.set_Trackable trackable g)) s in
    ((Some (GeoCache.Trackable g), err), s').
Proof. intros Hh. unfold SwitchTrackable. run_on Hh. reflexivity. Qed.

(** The geofence test of the code decides [inside]. *)
Lemma geofence_inside (g : GeoCache.t) (x y : Z) :
  negb ((x >? fst (GeoCache.XcoordRange g)) && (x <? snd (GeoCache.XcoordRange g)))
  || negb ((y >? fst (GeoCache.YcoordRange g)) && (y <? snd (GeoCache.YcoordRange g)))
  = false <-> inside g x y.
Proof.
  unfold inside. rewrite orb_false_iff, !negb_false_iff, !andb_true_iff.
  rewrite !Z.gtb_ltb, !Z.ltb_lt. tauto.
Qed.

Lemma AddVisitorToGeoCache_holds (s : Stub) (key : string) (g : GeoCache.t)
    (user : User.t) (x y : Z) :
  holds s key g ->
  (inside g x y ->
   AddVisitorToGeoCache user key x y s =
     PutState key
       (json_Marshal (GeoCache.set_Visitors (GeoCache.Visitors g ++ [user]) g)) s)
  /\ (~ inside g x y ->
      AddVisitorToGeoCache user key x y s = (Some Errorf_range, s)).
Proof.
  intros Hh. pose proof (geofence_inside g x y) as Hfence.
  split; intros Hin; unfold AddVisitorToGeoCache; run_on Hh;
    destruct (negb _ || negb _); try reflexivity.
  - apply Hfence in Hin. discriminate.
  - destruct Hin. apply Hfence. reflexivity.
Qed.

Lemma CreateGeoCache_absent (s : Stub) (key : string) (rnd_salt rnd_id : nat -> nat)
    (user : User.t) (name description : string) (xRange yRange : Z * Z)
    (trackableValue : string) :
  get_err s key = None -> state s !! key = None ->
  CreateGeoCache rnd_salt rnd_id user key name description xRange yRange trackableValue s
  = PutState key
      (json_Marshal
         (created rnd_salt rnd_id user name description xRange yRange trackableValue))
      s.
Proof.
  intros Hg Hs. unfold CreateGeoCache, bind.
  rewrite (GeoCacheExists_absent _ _ Hg Hs). reflexivity.
Qed.

(** A write leaves the ledger's answers to reads as they were. *)
Lemma holds_after_put (s s' : Stub) (key : string) (g : GeoCache.t) :
  get_err s key = None -> get_err s' = get_err s -> stored s' key = Some g ->
  holds s' key g.
Proof. intros Hg Hg' Hs. split; [rewrite Hg'; exact Hg | exact Hs]. Qed.

(** C5: creating under a key whose existence check answers true fails with
    the already-exists error for that key, and the stub is left as it was:
    no write is asked for and the bytes under the key are untouched. *)
Theorem create_on_live_key_rejected (s : Stub) (key : string)
    (rnd_salt rnd_id : nat -> nat) (user : User.t) (name description : string)
    (xRange yRange : Z * Z) (trackableValue : string) :
  fst (GeoCacheExists key s) = (true, None) ->
  CreateGeoCache rnd_salt rnd_id user key name description xRange yRange trackableValue s
  = (Some (Errorf_exists key), s).
Proof.
  cbv beta iota delta [CreateGeoCache bind GeoCacheExists GetState ret fst].
  destruct (get_err s key); intros Hlive; [discriminate Hlive|].
  destruct (state s !! key); [reflexivity | discriminate Hlive].
Qed.

(** C8: on a key the ledger reads as absent (no value, no error) each of
    the seven transactions fails with the does-not-exist error for that key
    and leaves the stub as it was: no write and no delete is asked for. *)
Theorem absent_key_rejected (s : Stub) (key : string) :
  get_err s key = None -> state s !! key = None ->
  ReadGeoCache key s = ((None, Some (Errorf_missing key)), s)
  /\ (forall user newName newDescription,
        UpdateGeoCache user key newName newDescription s
        = (Some (Errorf_missing key), s))
  /\ (forall user newX newY,
        UpdateCoordGeoCache user key newX newY s = (Some (Errorf_missing key), s))
  /\ (forall user, DeleteGeoCache user key s = (Some (Errorf_missing key), s))
  /\ (forall rnd user message,
        ReportGeoCache rnd user message key s = (Some (Errorf_missing key), s))
  /\ (forall user, GetReports user key s = (([], Some (Errorf_missing key)), s))
  /\ (forall user x y,
        AddVisitorToGeoCache user key x y s = (Some (Errorf_missing key), s)).
Proof.
  intros Hg Hs.
  unfold ReadGeoCache, UpdateGeoCache, UpdateCoordGeoCache, DeleteGeoCache,
    ReportGeoCache, GetReports, AddVisitorToGeoCache, bind.
  rewrite (GeoCacheExists_absent _ _ Hg Hs). repeat split.
Qed.

(** C9: a delete by the owner that the ledger accepts removes the key; the
    existence check then answers false, and a second delete, by anyone,
    fails with the does-not-exist error. *)
Theorem delete_lifecycle (s : Stub) (key : string) (g : GeoCache.t) (user : User.t) :
  holds s key g -> not_owner g user = false -> del_err s key = None ->
  exists s',
    DeleteGeoCache user key s = (None, s')
    /\ state s' = delete key (state s)
    /\ GeoCacheExists key s' = ((false, None), s')
    /\ forall user', DeleteGeoCache user' key s' = (Some (Errorf_missing key), s').
Proof.
  intros Hh Howner Hdel. rewrite (DeleteGeoCache_holds _ _ _ _ Hh), Howner.
  destruct (DelState_accepted s key Hdel) as (s' & Hrun & Hst & Hg & _).
  exists s'. destruct Hh as [Hget _].
  assert (Hget' : get_err s' key = None) by (rewrite Hg; exact Hget).
  assert (Hgone : state s' !! key = None) by (rewrite Hst; apply lookup_delete_eq).
  repeat split; try assumption.
  - apply GeoCacheExists_absent; assumption.
  - intros user'. unfold DeleteGeoCache, bind.
    rewrite (GeoCacheExists_absent _ _ Hget' Hgone). reflexivity.
Qed.

(** C2: on a key that holds a record, a visit strictly inside both ranges
    appends the caller at the end of the visitors and nothing else (when the
    ledger accepts the write): the record then under the key has the
    visitors it had followed by the caller, every other field as it was, and
    it is the one write the ledger was asked for; a visit on a bound or
    outside fails with the out-of-range error and leaves the stub, hence the
    visitors, as they were; so the call succeeds exactly when the position is
    strictly inside. *)
Theorem geofence_strict (s : Stub) (key : string) (g : GeoCache.t) (user : User.t)
    (x y : Z) :
  holds s key g ->
  (inside g x y -> put_err s key = None ->
   exists s' g',
     AddVisitorToGeoCache user key x y s = (None, s')
     /\ holds s' key g'
     /\ g' = GeoCache.mk (GeoCache.Id g) (GeoCache.Name g) (GeoCache.Description g)
               (GeoCache.XcoordRange g) (GeoCache.YcoordRange g) (GeoCache.Owner g)
               (GeoCache.Reports g) (GeoCache.Visitors g ++ [user])
               (GeoCache.Trackable g)
     /\ GeoCache.Visitors g' = GeoCache.Visitors g ++ [user]
     /\ last (GeoCache.Visitors g') = Some user
     /\ ReadGeoCache key s' = ((Some g', None), s')
     /\ calls s' = calls s ++ [PutStateCall key (json_Marshal g')])
  /\ (~ inside g x y ->
      AddVisitorToGeoCache user key x y s = (Some Errorf_range, s))
  /\ (put_err s key = None ->
      (fst (AddVisitorToGeoCache user key x y s) = None <-> inside g x y)).
Proof.
  intros Hh. destruct (AddVisitorToGeoCache_holds s key g user x y Hh) as [Hin Hout].
  set (g1 := GeoCache.mk (GeoCache.Id g) (GeoCache.Name g) (GeoCache.Description g)
               (GeoCache.XcoordRange g) (GeoCache.YcoordRange g) (GeoCache.Owner g)
               (GeoCache.Reports g) (GeoCache.Visitors g ++ [user])
               (GeoCache.Trackable g)).
  assert (Hok : inside g x y -> put_err s key = None ->
                exists s',
                  AddVisitorToGeoCache user key x y s = (None, s')
                  /\ holds s' key g1
                  /\ calls s' = calls s ++ [PutStateCall key (json_Marshal g1)]).
  { intros Hi Hp. rewrite (Hin Hi).
    destruct (PutState_accepted s key g1 Hp) as (s' & Hrun & _ & Hg & _ & _ & Hc & Hst).
    exists s'. split; [exact Hrun|]. split; [|exact Hc].
    destruct Hh as [Hget _]. eapply holds_after_put; eassumption. }
  split; [|split; [exact Hout|]].
  - intros Hi Hp. destruct (Hok Hi Hp) as (s' & Hrun & Hh' & Hc).
    exists s', g1. split; [exact Hrun|]. split; [exact Hh'|]. split; [reflexivity|].
    split; [reflexivity|]. split; [apply last_snoc|].
    split; [apply ReadGeoCache_holds; exact Hh' | exact Hc].
  - intros Hp. split.
    + intros Hres.
      assert (Hdec : inside g x y \/ ~ inside g x y) by (unfold inside; lia).
      destruct Hdec as [Hi|Ho]; [exact Hi|].
      rewrite (Hout Ho) in Hres. discriminate.
    + intros Hi. destruct (Hok Hi Hp) as (s' & Hrun & _). rewrite Hrun. reflexivity.
Qed.

(** No integer lies strictly between two bounds exactly when the upper one
    is at most the lower one plus one. *)
Lemma empty_range_iff (lo hi : Z) :
  (forall x, ~ (lo < x < hi)) <-> hi <= lo + 1.
Proof.
  split.
  - intros Hempty. destruct (Z_le_gt_dec hi (lo + 1)) as [Hle|Hgt]; [exact Hle|].
    exfalso. apply (Hempty (lo + 1)). lia.
  - intros Hle x Hx. lia.
Qed.

(** C10: creation takes any two ranges, in any order, and stores them as
    given; when no integer lies strictly between the two bounds of the x
    range, every visit to the created record fails with the out-of-range
    error, whoever calls and wherever from, and leaves the stub as it was. *)
Theorem empty_range_never_visited (s : Stub) (key : string)
    (rnd_salt rnd_id : nat -> nat) (owner : User.t) (name description : string)
    (xRange yRange : Z * Z) (trackableValue : string) :
  get_err s key = None -> state s !! key = None -> put_err s key = None ->
  exists s' g,
    CreateGeoCache rnd_salt rnd_id owner key name description xRange yRange
      trackableValue s = (None, s')
    /\ holds s' key g
    /\ GeoCache.XcoordRange g = xRange /\ GeoCache.YcoordRange g = yRange
    /\ ((forall x, ~ (fst xRange < x < snd xRange)) ->
        forall user x y,
          AddVisitorToGeoCache user key x y s' = (Some Errorf_range, s')).
Proof.
  intros Hg Hs Hp. rewrite (CreateGeoCache_absent _ _ _ _ _ _ _ _ _ _ Hg Hs).
  destruct (PutState_accepted s key
              (created rnd_salt rnd_id owner name description xRange yRange
                 trackableValue) Hp)
    as (s' & Hrun & _ & Hg' & _ & _ & _ & Hst).
  exists s', (created rnd_salt rnd_id owner name description xRange yRange
                trackableValue).
  assert (Hh : holds s' key
                 (created rnd_salt rnd_id owner name description xRange yRange
                    trackableValue))
    by (eapply holds_after_put; eassumption).
  repeat split; try assumption; try apply Hh.
  intros Hempty user x y.
  apply (AddVisitorToGeoCache_holds s' key _ user x y Hh).
  unfold inside. simpl. intros [Hx _]. exact (Hempty x Hx).
Qed.

Lemma not_owner_false (g : GeoCache.t) (user : User.t) :
  not_owner g user = false
  <-> myHash (User.Id user +:+ User.Salt (GeoCache.Owner g)) = User.Id (GeoCache.Owner g).
Proof.
  unfold not_owner. rewrite bool_decide_eq_false. split.
  - intros Hnn. destruct (decide (User.Id (GeoCache.Owner g)
                                  = myHash (User.Id user +:+ User.Salt (GeoCache.Owner g))))
      as [->|Hne]; [reflexivity | contradiction].
  - intros Heq Hne. apply Hne. symmetry. exact Heq.
Qed.

Lemma not_owner_true (g : GeoCache.t) (user : User.t) :
  not_owner g user = true
  <-> myHash (User.Id user +:+ User.Salt (GeoCache.Owner g)) <> User.Id (GeoCache.Owner g).
Proof.
  unfold not_owner. rewrite bool_decide_eq_true. split; intros Hne Heq; apply Hne;
    symmetry; exact Heq.
Qed.

(** A caller the gate turns away changes nothing, whatever the record. *)
Lemma gate_rejects (s : Stub) (key : string) (g : GeoCache.t) (user : User.t) :
  holds s key g -> not_owner g user = true ->
  (forall newName newDescription,
     UpdateGeoCache user key newName newDescription s = (Some Errorf_owner_update, s))
  /\ (forall newX newY,
        UpdateCoordGeoCache user key newX newY s = (Some Errorf_owner_update, s))
  /\ DeleteGeoCache user key s = (Some Errorf_owner_update, s)
  /\ GetReports user key s = (([], Some Errorf_owner_reports), s).
Proof.
  intros Hh Hno. repeat split; intros.
  - rewrite (UpdateGeoCache_holds _ _ _ _ _ _ Hh), Hno. reflexivity.
  - rewrite (UpdateCoordGeoCache_holds _ _ _ _ _ _ Hh), Hno. reflexivity.
  - rewrite (DeleteGeoCache_holds _ _ _ _ Hh), Hno. reflexivity.
  - rewrite (GetReports_holds _ _ _ _ Hh), Hno. reflexivity.
Qed.

(** C1 (as amended): a record created by a caller with raw identifier [A]
    carries the fresh salt and the commitment of [A] under it; recomputing
    the commitment with [A] matches; and a caller [B] whose recomputed
    commitment differs from the stored one is turned away by
    [UpdateGeoCache], [UpdateCoordGeoCache], [DeleteGeoCache] and
    [GetReports] with the not-owner error, the stub left as it was. *)
Theorem ownership_gate (s : Stub) (key : string) (rnd_salt rnd_id : nat -> nat)
    (A : User.t) (name description : string) (xRange yRange : Z * Z)
    (trackableValue : string) :
  get_err s key = None -> state s !! key = None -> put_err s key = None ->
  exists s' g,
    CreateGeoCache rnd_salt rnd_id A key name description xRange yRange
      trackableValue s = (None, s')
    /\ holds s' key g
    /\ User.Salt (GeoCache.Owner g) = generateRandomString rnd_salt
    /\ User.Id (GeoCache.Owner g)
       = myHash (User.Id A +:+ generateRandomString rnd_salt)
    /\ not_owner g A = false
    /\ forall B : User.t,
         myHash (User.Id B +:+ generateRandomString rnd_salt)
         <> myHash (User.Id A +:+ generateRandomString rnd_salt) ->
         not_owner g B = true
         /\ (forall newName newDescription,
               UpdateGeoCache B key newName newDescription s'
               = (Some Errorf_owner_update, s'))
         /\ (forall newX newY,
               UpdateCoordGeoCache B key newX newY s' = (Some Errorf_owner_update, s'))
         /\ DeleteGeoCache B key s' = (Some Errorf_owner_update, s')
         /\ GetReports B key s' = (([], Some Errorf_owner_reports), s').
Proof.
  intros Hg Hs Hp. rewrite (CreateGeoCache_absent _ _ _ _ _ _ _ _ _ _ Hg Hs).
  set (g := created rnd_salt rnd_id A name description xRange yRange trackableValue).
  destruct (PutState_accepted s key g Hp) as (s' & Hrun & _ & Hg' & _ & _ & _ & Hst).
  assert (Hh : holds s' key g) by (eapply holds_after_put; eassumption).
  exists s', g. split; [exact Hrun|]. split; [exact Hh|].
  split; [reflexivity|]. split; [reflexivity|].
  split; [apply not_owner_false; reflexivity|].
  intros B HB. assert (Hno : not_owner g B = true) by (apply not_owner_true; exact HB).
  split; [exact Hno|]. exact (gate_rejects _ _ _ _ Hh Hno).
Qed.



(** What the current contract does where the earlier one fails (C4):
    an update by the owner rewrites the name and the description and no
    other field. *)
Lemma UpdateGeoCache_frame (s : Stub) (key : string) (g : GeoCache.t) (user : User.t)
    (newName newDescription : string) :
  holds s key g -> not_owner g user = false -> put_err s key = None ->
  exists s' g',
    UpdateGeoCache user key newName newDescription s = (None, s')
    /\ holds s' key g'
    /\ GeoCache.Name g' = newName /\ GeoCache.Description g' = newDescription
    /\ GeoCache.Id g' = GeoCache.Id g
    /\ GeoCache.XcoordRange g' = GeoCache.XcoordRange g
    /\ GeoCache.YcoordRange g' = GeoCache.YcoordRange g
    /\ GeoCache.Owner g' = GeoCache.Owner g
    /\ GeoCache.Reports g' = GeoCache.Reports g
    /\ GeoCache.Visitors g' = GeoCache.Visitors g
    /\ GeoCache.Trackable g' = GeoCache.Trackable g.
Proof.
  intros Hh Ho Hp. rewrite (UpdateGeoCache_holds _ _ _ _ _ _ Hh), Ho.
  set (g' := GeoCache.set_Description newDescription (GeoCache.set_Name newName g)).
  destruct (PutState_accepted s key g' Hp) as (s' & Hrun & _ & Hg & _ & _ & _ & Hst).
  exists s', g'. split; [exact Hrun|].
  split; [destruct Hh as [Hget _]; eapply holds_after_put; eassumption|].
  repeat split.
Qed.

(** And an update of the coordinates by the owner rewrites the two ranges
    and no other field. *)
Lemma UpdateCoordGeoCache_frame (s : Stub) (key : string) (g : GeoCache.t)
    (user : User.t) (newX newY : Z * Z) :
  holds s key g -> not_owner g user = false -> put_err s key = None ->
  exists s' g',
    UpdateCoordGeoCache user key newX newY s = (None, s')
    /\ holds s' key g'
    /\ GeoCache.XcoordRange g' = newX /\ GeoCache.YcoordRange g' = newY
    /\ GeoCache.Id g' = GeoCache.Id g
    /\ GeoCache.Name g' = GeoCache.Name g
    /\ GeoCache.Description g' = GeoCache.Description g
    /\ GeoCache.Owner g' = GeoCache.Owner g
    /\ GeoCache.Reports g' = GeoCache.Reports g
    /\ GeoCache.Visitors g' = GeoCache.Visitors g
    /\ GeoCache.Trackable g' = GeoCache.Trackable g.
Proof.
  intros Hh Ho Hp. rewrite (UpdateCoordGeoCache_holds _ _ _ _ _ _ Hh), Ho.
  set (g' := GeoCache.set_YcoordRange newY (GeoCache.set_XcoordRange newX g)).
  destruct (PutState_accepted s key g' Hp) as (s' & Hrun & _ & Hg & _ & _ & _ & Hst).
  exists s', g'. split; [exact Hrun|].
  split; [destruct Hh as [Hget _]; eapply holds_after_put; eassumption|].
  repeat split.
Qed.

(** What the current contract does where the earlier one fails (C6):
    switching [T1] in returns the trackable that was stored and stores [T1],
    the other fields as they were; switching the returned one back in
    returns [T1] and restores the record. *)
Lemma SwitchTrackable_round_trip (s : Stub) (key : string) (g : GeoCache.t)
    (T1 : Trackable.t) :
  holds s key g -> put_err s key = None ->
  exists s1 s2,
    SwitchTrackable T1 key s = ((Some (GeoCache.Trackable g), None), s1)
    /\ holds s1 key (GeoCache.set_Trackable T1 g)
    /\ SwitchTrackable (GeoCache.Trackable g) key s1 = ((Some T1, None), s2)
    /\ holds s2 key g.
Proof.
  intros Hh Hp.
  destruct (PutState_accepted s key (GeoCache.set_Trackable T1 g) Hp)
    as (s1 & Hrun1 & _ & Hg1 & Hp1 & _ & _ & Hst1).
  assert (Hh1 : holds s1 key (GeoCache.set_Trackable T1 g))
    by (destruct Hh as [Hget _]; eapply holds_after_put; eassumption).
  destruct (PutState_accepted s1 key g ltac:(rewrite Hp1; exact Hp))
    as (s2 & Hrun2 & _ & Hg2 & _ & _ & _ & Hst2).
  assert (Hback : GeoCache.set_Trackable (GeoCache.Trackable g)
                    (GeoCache.set_Trackable T1 g) = g) by (destruct g; reflexivity).
  exists s1, s2. split; [|split; [exact Hh1|split]].
  - rewrite (SwitchTrackable_holds _ _ _ _ Hh), Hrun1. reflexivity.
  - rewrite (SwitchTrackable_holds _ _ _ _ Hh1), Hback, Hrun2. reflexivity.
  - destruct Hh1 as [Hget1 _]. eapply holds_after_put; eassumption.
Qed.

End ContractFacts.

(** ** The earlier revision never reads the record *)

Section ContractV2Facts.

Import ContractV2.
Context `{JsonCodec GeoCache.t}.

(** Whatever is stored under the key, an update by the caller with the empty
    identifier is accepted and writes an empty record carrying the new name
    and description; any other caller, the owner too, is turned away. *)
Lemma UpdateGeoCache_v2_bound (s : Stub) (key bytes userId newName newDescription : string) :
  get_err s key = None -> state s !! key = Some bytes ->
  UpdateGeoCache userId key newName newDescription s =
    if bool_decide ("" ≠ userId) then (Some Errorf_owner_update, s)
    else PutState key
           (json_Marshal
              (GeoCache.set_Description newDescription
                 (GeoCache.set_Name newName GeoCache.new))) s.
Proof.
  intros Hg Hs. unfold UpdateGeoCache, bind.
  rewrite (GeoCacheExists_bound _ _ _ Hg Hs). cbn [negb GeoCache.new GeoCache.Owner User.new User.Id].
  destruct (bool_decide ("" ≠ userId)); reflexivity.
Qed.

(** Whatever is stored under the key, and whoever calls, the coordinates
    update writes an empty record carrying the two ranges. *)
Lemma UpdateCoordGeoCache_v2_bound (s : Stub) (key bytes newValue : string)
    (newX newY : Z * Z) :
  get_err s key = None -> state s !! key = Some bytes ->
  UpdateCoordGeoCache key newValue newX newY s =
    PutState key
      (json_Marshal
         (GeoCache.set_YcoordRange newY (GeoCache.set_XcoordRange newX GeoCache.new))) s.
Proof.
  intros Hg Hs. unfold UpdateCoordGeoCache, bind.
  rewrite (GeoCacheExists_bound _ _ _ Hg Hs). reflexivity.
Qed.

(** Whatever is stored under the key, a switch returns the empty trackable
    and writes an empty record carrying the new one. *)
Lemma SwitchTrackable_v2_bound (s : Stub) (key bytes : string) (trackable : Trackable.t) :
  get_err s key = None -> state s !! key = Some bytes ->
  SwitchTrackable trackable key s =
    let (err, s') :=
      PutState key (json_Marshal (GeoCache.set_Trackable trackable GeoCache.new)) s in
    ((Some Trackable.new, err), s').
Proof.
  intros Hg Hs. unfold SwitchTrackable, bind.
  rewrite (GeoCacheExists_bound _ _ _ Hg Hs). reflexivity.
Qed.

End ContractV2Facts.

(** ** The shape of commitments and random strings *)

Lemma string_of_list_ascii_length (l : list ascii) :
  String.length (string_of_list_ascii l) = length l.
Proof. induction l as [|c l IH]; simpl; [reflexivity | rewrite IH; reflexivity]. Qed.

Lemma get_In (s : string) (i : nat) (c : ascii) :
  String.get i s = Some c -> In c (list_ascii_of_string s).
Proof.
  revert i. induction s as [|d s IH]; intros i Hget; [discriminate|].
  destruct i as [|i]; simpl in *.
  - left. congruence.
  - right. exact (IH i Hget).
Qed.

Lemma rune_at_In (i : nat) : In (rune_at i) (list_ascii_of_string letterRunes).
Proof.
  unfold rune_at.
  destruct (String.get (i mod String.length letterRunes) letterRunes) as [c|] eqn:E.
  - exact (get_In _ _ _ E).
  - left. reflexivity.
Qed.

(** X1: whatever the generator draws, a random string has eight characters,
    each of them one of the 62 digits and letters of [letterRunes]. *)
Theorem generateRandomString_shape (rnd : nat -> nat) :
  String.length (generateRandomString rnd) = 8%nat
  /\ Forall (fun c => In c (list_ascii_of_string letterRunes))
       (list_ascii_of_string (generateRandomString rnd)).
Proof.
  unfold generateRandomString. split.
  - rewrite string_of_list_ascii_length, length_map, length_seq. reflexivity.
  - rewrite list_ascii_of_string_of_list_ascii. apply Forall_forall.
    intros c Hc. apply list_elem_of_In, in_map_iff in Hc as (i & <- & _).
    apply rune_at_In.
Qed.

Lemma digit_In (n : Z) : In (Hex.digit n) (list_ascii_of_string Hex.hextable).
Proof.
  unfold Hex.digit.
  destruct (String.get (Z.to_nat n) Hex.hextable) as [c|] eqn:E.
  - exact (get_In _ _ _ E).
  - left. reflexivity.
Qed.

Lemma EncodeToString_length (s : string) :
  String.length (Hex.EncodeToString s) = (2 * String.length s)%nat.
Proof. induction s as [|c s IH]; simpl; [reflexivity | rewrite IH; lia]. Qed.

Lemma EncodeToString_digits (s : string) :
  Forall (fun c => In c (list_ascii_of_string Hex.hextable))
    (list_ascii_of_string (Hex.EncodeToString s)).
Proof.
  induction s as [|c s IH]; simpl; [constructor|].
  constructor; [apply digit_In|]. constructor; [apply digit_In | exact IH].
Qed.

Lemma sha1_length (s : string) : String.length (Sha1.sha1 s) = 20%nat.
Proof.
  unfold Sha1.sha1, Sha1.string_of_bytes.
  rewrite string_of_list_ascii_length, length_map. reflexivity.
Qed.

(** X2: a commitment is always 40 characters long, each of them a lower-case
    hexadecimal digit, whatever the input. *)
Theorem myHash_shape (s : string) :
  String.length (myHash s) = 40%nat
  /\ Forall (fun c => In c (list_ascii_of_string Hex.hextable))
       (list_ascii_of_string (myHash s)).
Proof.
  split; [|apply EncodeToString_digits].
  unfold myHash. rewrite EncodeToString_length, (myHash_loop_iter 99) by lia.
  change (Nat.iter 99 Sha1.sha1 s) with (Sha1.sha1 (Nat.iter 98 Sha1.sha1 s)).
  rewrite sha1_length. reflexivity.
Qed.

(** ** What a transaction may touch *)

Lemma reads_only_ret {A : Type} (a : A) : reads_only (ret a).
Proof. intros s. reflexivity. Qed.

Lemma reads_only_GetState (key : string) : reads_only (GetState key).
Proof. intros s. unfold GetState. destruct (get_err s key); reflexivity. Qed.

Lemma reads_only_bind {A B : Type} (m : Tx A) (f : A -> Tx B) :
  reads_only m -> (forall a, reads_only (f a)) -> reads_only (bind m f).
Proof.
  intros Hm Hf s. unfold bind. specialize (Hm s).
  destruct (m s) as [a s1]. simpl in Hm. subst s1. apply Hf.
Qed.

Lemma reads_only_GeoCacheExists (key : string) : reads_only (GeoCacheExists key).
Proof.
  unfold GeoCacheExists. apply reads_only_bind; [apply reads_only_GetState|].
  intros [data [e|]]; apply reads_only_ret.
Qed.

Lemma writes_at_most_reads {A : Type} (key : string) (m : Tx A) :
  reads_only m -> writes_at_most key m.
Proof. intros Hm s. cbv zeta. rewrite (Hm s). repeat split. left. reflexivity. Qed.

Lemma writes_at_most_bind {A B : Type} (key : string) (m : Tx A) (f : A -> Tx B) :
  reads_only m -> (forall a, writes_at_most key (f a)) -> writes_at_most key (bind m f).
Proof.
  intros Hm Hf s. unfold bind. specialize (Hm s).
  destruct (m s) as [a s1]. simpl in Hm. subst s1. apply Hf.
Qed.

Lemma writes_at_most_then {A B : Type} (key : string) (m : Tx A) (f : A -> Tx B) :
  writes_at_most key m -> (forall a, reads_only (f a)) -> writes_at_most key (bind m f).
Proof.
  intros Hm Hf s. unfold bind. specialize (Hm s). cbv zeta in *.
  destruct (m s) as [a s1]. simpl in Hm. rewrite (Hf a s1). exact Hm.
Qed.

Lemma writes_at_most_PutState (key value : string) :
  writes_at_most key (PutState key value).
Proof.
  intros s. unfold PutState. destruct (put_err s key); simpl; repeat split;
    try (right; eexists; split; reflexivity).
  intros key' Hne. apply lookup_insert_ne. congruence.
Qed.

Lemma writes_at_most_DelState (key : string) : writes_at_most key (DelState key).
Proof.
  intros s. unfold DelState. destruct (del_err s key); simpl; repeat split;
    try (right; eexists; split; reflexivity).
  intros key' Hne. apply lookup_delete_ne. congruence.
Qed.

(** Walks down a computation that only reads. *)
Ltac reads :=
  repeat first
    [ apply reads_only_ret
    | apply reads_only_GetState
    | apply reads_only_GeoCacheExists
    | (apply reads_only_bind; [|intros ?])
    | progress cbv beta
    | match goal with
      | |- reads_only (match ?x with _ => _ end) => destruct x
      end ].

(** Walks down a transaction: reads first, then at most one write. *)
Ltac footprint :=
  repeat first
    [ apply writes_at_most_PutState
    | apply writes_at_most_DelState
    | (apply writes_at_most_reads; solve [reads])
    | (apply writes_at_most_bind; [solve [reads]|intros ?])
    | (apply writes_at_most_then; [|intros ?; solve [reads]])
    | progress cbv beta
    | match goal with
      | |- writes_at_most _ (match ?x with _ => _ end) => destruct x
      end ].

Section ContractFootprint.

Import Contract.
Context `{JsonCodec GeoCache.t}.

(** X3: the existence check, the read and the retrieval of the reports never
    ask the ledger for a write: whatever the stub and the arguments, they
    leave the stub as they found it. *)
Theorem reading_transactions_write_nothing (key : string) (user : User.t) :
  reads_only (GeoCacheExists key)
  /\ reads_only (ReadGeoCache key)
  /\ reads_only (GetReports user key).
Proof.
  split; [apply reads_only_GeoCacheExists|].
  split; [unfold ReadGeoCache | unfold GetReports]; reads.
Qed.

(** X4: whatever the stub and the arguments, a transaction of the contract
    asks the ledger for at most one write or delete, on its own key, leaves
    every other key as it was, and leaves the stub untouched when it asks for
    none. *)
Theorem transactions_write_own_key_once (key : string) (rnd_salt rnd_id : nat -> nat)
    (user : User.t) (name description message : string) (xRange yRange : Z * Z)
    (x y : Z) (trackable : Trackable.t) :
  writes_at_most key
    (CreateGeoCache rnd_salt rnd_id user key name description xRange yRange message)
  /\ writes_at_most key (UpdateGeoCache user key name description)
  /\ writes_at_most key (UpdateCoordGeoCache user key xRange yRange)
  /\ writes_at_most key (AddVisitorToGeoCache user key x y)
  /\ writes_at_most key (SwitchTrackable trackable key)
  /\ writes_at_most key (ReportGeoCache rnd_id user message key)
  /\ writes_at_most key (DeleteGeoCache user key).
Proof.
  unfold CreateGeoCache, UpdateGeoCache, UpdateCoordGeoCache, AddVisitorToGeoCache,
    SwitchTrackable, ReportGeoCache, DeleteGeoCache.
  repeat apply conj; footprint.
Qed.

End ContractFootprint.

(** ** Errors of the ledger and of the decoder *)

Lemma GeoCacheExists_unreadable (s : Stub) (key e : string) :
  get_err s key = Some e -> GeoCacheExists key s = ((false, Some e), s).
Proof.
  intros Hg. unfold GeoCacheExists, bind, GetState, ret. rewrite Hg. reflexivity.
Qed.

(** A write the ledger refuses is logged and changes nothing else. *)
Lemma PutState_refused (s : Stub) (key value e : string) :
  put_err s key = Some e ->
  exists s',
    PutState key value s = (Some e, s')
    /\ state s' = state s
    /\ get_err s' = get_err s /\ put_err s' = put_err s /\ del_err s' = del_err s
    /\ calls s' = calls s ++ [PutStateCall key value].
Proof.
  intros Hp. unfold PutState. rewrite Hp. eexists. split; [reflexivity|].
  simpl. repeat apply conj; reflexivity.
Qed.

Lemma holds_same_state {A : Type} `{JsonCodec A} (s s' : Stub) (key : string) (g : A) :
  holds s key g -> state s' = state s -> get_err s' = get_err s -> holds s' key g.
Proof.
  intros [Hg Hs] Hst Hge. split; [rewrite Hge; exact Hg|].
  unfold stored in *. rewrite Hst. exact Hs.
Qed.

Section ContractErrors.

Import Contract.
Context `{JsonCodec GeoCache.t}.

(** X5: on a key the ledger fails to read, the existence check returns false
    with the ledger's error as it is, and every transaction returns that
    error behind the could-not-read prefix and leaves the stub as it was. *)
Theorem unreadable_key_rejected (s : Stub) (key e : string) :
  get_err s key = Some e ->
  GeoCacheExists key s = ((false, Some e), s)
  /\ (forall rnd_salt rnd_id user name description xRange yRange trackableValue,
        CreateGeoCache rnd_salt rnd_id user key name description xRange yRange
          trackableValue s = (Some (Errorf_read e), s))
  /\ ReadGeoCache key s = ((None, Some (Errorf_read e)), s)
  /\ (forall user newName newDescription,
        UpdateGeoCache user key newName newDescription s = (Some (Errorf_read e), s))
  /\ (forall user x y,
        AddVisitorToGeoCache user key x y s = (Some (Errorf_read e), s))
  /\ (forall trackable,
        SwitchTrackable trackable key s = ((None, Some (Errorf_read e)), s))
  /\ (forall user newX newY,
        UpdateCoordGeoCache user key newX newY s = (Some (Errorf_read e), s))
  /\ (forall user, DeleteGeoCache user key s = (Some (Errorf_read e), s))
  /\ (forall rnd user message,
        ReportGeoCache rnd user message key s = (Some (Errorf_read e), s))
  /\ (forall user, GetReports user key s = (([], Some (Errorf_read e)), s)).
Proof.
  intros Hg.
  unfold CreateGeoCache, ReadGeoCache, UpdateGeoCache, AddVisitorToGeoCache,
    SwitchTrackable, UpdateCoordGeoCache, DeleteGeoCache, ReportGeoCache, GetReports,
    bind.
  rewrite (GeoCacheExists_unreadable _ _ _ Hg). repeat apply conj; reflexivity.
Qed.

(** X6: on a key bound to bytes that do not decode to a record, every
    transaction that reads the record returns the could-not-unmarshal error
    and leaves the stub as it was. *)
Theorem undecodable_record_rejected (s : Stub) (key bytes : string) :
  get_err s key = None -> state s !! key = Some bytes ->
  json_Unmarshal bytes = None ->
  ReadGeoCache key s = ((None, Some Errorf_unmarshal), s)
  /\ (forall user newName newDescription,
        UpdateGeoCache user key newName newDescription s = (Some Errorf_unmarshal, s))
  /\ (forall user x y,
        AddVisitorToGeoCache user key x y s = (Some Errorf_unmarshal, s))
  /\ (forall trackable,
        SwitchTrackable trackable key s = ((None, Some Errorf_unmarshal), s))
  /\ (forall user newX newY,
        UpdateCoordGeoCache user key newX newY s = (Some Errorf_unmarshal, s))
  /\ (forall user, DeleteGeoCache user key s = (Some Errorf_unmarshal, s))
  /\ (forall rnd user message,
        ReportGeoCache rnd user message key s = (Some Errorf_unmarshal, s))
  /\ (forall user, GetReports user key s = (([], Some Errorf_unmarshal), s)).
Proof.
  intros Hg Hs Hu.
  unfold ReadGeoCache, UpdateGeoCache, AddVisitorToGeoCache,
    SwitchTrackable, UpdateCoordGeoCache, DeleteGeoCache, ReportGeoCache, GetReports,
    bind.
  rewrite (GeoCacheExists_bound _ _ _ Hg Hs). cbn [negb]. unfold GetState.
  rewrite Hg, Hs. cbn [Unmarshal]. rewrite Hu. repeat apply conj; reflexivity.
Qed.

(** X7: on an absent key the existence check answers false; a creation the
    ledger accepts asks for one write, after which the existence check
    answers true, the read returns the record built (the names and ranges
    given, the owner's commitment and salt, the fresh trackable, no report,
    no visitor), and a second creation is turned away. *)
Theorem create_then_read (s : Stub) (key : string) (rnd_salt rnd_id : nat -> nat)
    (user : User.t) (name description : string) (xRange yRange : Z * Z)
    (trackableValue : string) :
  get_err s key = None -> state s !! key = None -> put_err s key = None ->
  GeoCacheExists key s = ((false, None), s)
  /\ exists s',
       CreateGeoCache rnd_salt rnd_id user key name description xRange yRange
         trackableValue s = (None, s')
       /\ calls s'
          = calls s
            ++ [PutStateCall key
                  (json_Marshal
                     (created rnd_salt rnd_id user name description xRange yRange
                        trackableValue))]
       /\ GeoCacheExists key s' = ((true, None), s')
       /\ ReadGeoCache key s'
          = ((Some (created rnd_salt rnd_id user name description xRange yRange
                      trackableValue), None), s')
       /\ forall rnd_salt' rnd_id' user' name' description' xRange' yRange' value',
            CreateGeoCache rnd_salt' rnd_id' user' key name' description' xRange'
              yRange' value' s' = (Some (Errorf_exists key), s').
Proof.
  intros Hg Hs Hp. split; [apply GeoCacheExists_absent; assumption|].
  rewrite (CreateGeoCache_absent _ _ _ _ _ _ _ _ _ _ Hg Hs).
  set (g := created rnd_salt rnd_id user name description xRange yRange trackableValue).
  destruct (PutState_accepted s key g Hp) as (s' & Hrun & Hst & Hg' & _ & _ & Hc & Hsd).
  assert (Hh : holds s' key g) by (eapply holds_after_put; eassumption).
  assert (Hget' : get_err s' key = None) by apply Hh.
  assert (Hb : state s' !! key = Some (json_Marshal g))
    by (rewrite Hst; apply lookup_insert_eq).
  exists s'. split; [exact Hrun|]. split; [exact Hc|].
  split; [exact (GeoCacheExists_bound _ _ _ Hget' Hb)|].
  split; [exact (ReadGeoCache_holds _ _ _ Hh)|].
  intros. unfold CreateGeoCache, bind.
  rewrite (GeoCacheExists_bound _ _ _ Hget' Hb). reflexivity.
Qed.

(** X8: when the ledger refuses the write, an update by the owner, an update
    of the coordinates by the owner, a visit inside the ranges and a report
    return the ledger's error as it is; the world state is as it was and the
    key still holds the record. *)
Theorem refused_write_keeps_record (s : Stub) (key e : string) (g : GeoCache.t)
    (owner user : User.t) (x y : Z) :
  holds s key g -> put_err s key = Some e ->
  not_owner g owner = false -> inside g x y ->
  (forall newName newDescription,
     fst (UpdateGeoCache owner key newName newDescription s) = Some e
     /\ state (snd (UpdateGeoCache owner key newName newDescription s)) = state s
     /\ holds (snd (UpdateGeoCache owner key newName newDescription s)) key g)
  /\ (forall newX newY,
        fst (UpdateCoordGeoCache owner key newX newY s) = Some e
        /\ state (snd (UpdateCoordGeoCache owner key newX newY s)) = state s
        /\ holds (snd (UpdateCoordGeoCache owner key newX newY s)) key g)
  /\ (fst (AddVisitorToGeoCache user key x y s) = Some e
      /\ state (snd (AddVisitorToGeoCache user key x y s)) = state s
      /\ holds (snd (AddVisitorToGeoCache user key x y s)) key g)
  /\ (forall rnd message,
        fst (ReportGeoCache rnd user message key s) = Some e
        /\ state (snd (ReportGeoCache rnd user message key s)) = state s
        /\ holds (snd (ReportGeoCache rnd user message key s)) key g).
Proof.
  intros Hh Hp Ho Hin.
  assert (Hput : forall value,
             fst (PutState key value s) = Some e
             /\ state (snd (PutState key value s)) = state s
             /\ holds (snd (PutState key value s)) key g).
  { intros value. destruct (PutState_refused s key value e Hp)
      as (s' & Hrun & Hst & Hge & _). rewrite Hrun. simpl.
    split; [reflexivity|]. split; [exact Hst|].
    exact (holds_same_state _ _ _ _ Hh Hst Hge). }
  split; [|split; [|split]]; intros.
  - rewrite (UpdateGeoCache_holds _ _ _ _ _ _ Hh), Ho. apply Hput.
  - rewrite (UpdateCoordGeoCache_holds _ _ _ _ _ _ Hh), Ho. apply Hput.
  - rewrite (proj1 (AddVisitorToGeoCache_holds _ _ _ user x y Hh) Hin). apply Hput.
  - rewrite (ReportGeoCache_holds _ _ _ _ _ _ Hh). apply Hput.
Qed.

(** X9: when the ledger refuses the write, [SwitchTrackable] still returns the
    trackable of the record, together with the ledger's error; the record
    keeps that trackable. *)
Theorem refused_switch_returns_trackable (s : Stub) (key e : string) (g : GeoCache.t)
    (trackable : Trackable.t) :
  holds s key g -> put_err s key = Some e ->
  exists s',
    SwitchTrackable trackable key s = ((Some (GeoCache.Trackable g), Some e), s')
    /\ state s' = state s
    /\ holds s' key g.
Proof.
  intros Hh Hp. rewrite (SwitchTrackable_holds _ _ _ _ Hh).
  destruct (PutState_refused s key
              (json_Marshal (GeoCache.set_Trackable trackable g)) e Hp)
    as (s' & Hrun & Hst & Hge & _).
  rewrite Hrun. exists s'. split; [reflexivity|]. split; [exact Hst|].
  exact (holds_same_state _ _ _ _ Hh Hst Hge).
Qed.

(** After a write of a record on a key that held one, the key holds the old
    record or the new one. *)
Lemma PutState_holds_either (s : Stub) (key : string) (g g' : GeoCache.t) :
  holds s key g ->
  holds (snd (PutState key (json_Marshal g') s)) key g
  \/ holds (snd (PutState key (json_Marshal g') s)) key g'.
Proof.
  intros Hh. destruct (put_err s key) as [e|] eqn:Hp.
  - left. destruct (PutState_refused s key (json_Marshal g') e Hp)
      as (s' & Hrun & Hst & Hge & _). rewrite Hrun.
    exact (holds_same_state _ _ _ _ Hh Hst Hge).
  - right. destruct (PutState_accepted s key g' Hp)
      as (s' & Hrun & _ & Hge & _ & _ & _ & Hsd). rewrite Hrun.
    destruct Hh as [Hget _]. eapply holds_after_put; eassumption.
Qed.

Lemma kept_refl (g : GeoCache.t) : kept g g.
Proof. split; [reflexivity | split; reflexivity]. Qed.

Lemma kept_after (s' : Stub) (key : string) (g g' : GeoCache.t) :
  holds s' key g \/ holds s' key g' -> kept g g' ->
  exists g'', holds s' key g'' /\ kept g g''.
Proof.
  intros [Hh|Hh] Hk; [exists g | exists g']; split; auto using kept_refl.
Qed.

(** X10: whatever a transaction other than the delete does to a key that
    holds a record, whoever calls it and whether or not the ledger accepts
    the write, the key holds a record afterwards with the same owner (salt
    and commitment), and the visitors and the reports that were there are
    still there, in front and in order. *)
Theorem owner_kept_logs_append_only (s : Stub) (key : string) (g : GeoCache.t)
    (user : User.t) (rnd : nat -> nat) (name description message : string)
    (xRange yRange : Z * Z) (x y : Z) (trackable : Trackable.t) :
  holds s key g ->
  (exists g', holds (snd (UpdateGeoCache user key name description s)) key g'
              /\ kept g g')
  /\ (exists g', holds (snd (UpdateCoordGeoCache user key xRange yRange s)) key g'
                 /\ kept g g')
  /\ (exists g', holds (snd (AddVisitorToGeoCache user key x y s)) key g'
                 /\ kept g g')
  /\ (exists g', holds (snd (SwitchTrackable trackable key s)) key g'
                 /\ kept g g')
  /\ (exists g', holds (snd (ReportGeoCache rnd user message key s)) key g'
                 /\ kept g g').
Proof.
  intros Hh.
  assert (Hput : forall g', kept g g' ->
            exists g'', holds (snd (PutState key (json_Marshal g') s)) key g''
                        /\ kept g g'').
  { intros g' Hk. exact (kept_after _ _ _ _ (PutState_holds_either s key g g' Hh) Hk). }
  assert (Hsame : exists g', holds s key g' /\ kept g g')
    by (exists g; split; [exact Hh | apply kept_refl]).
  split; [|split; [|split; [|split]]].
  - rewrite (UpdateGeoCache_holds _ _ _ _ _ _ Hh).
    destruct (not_owner g user); [exact Hsame|].
    apply Hput. split; [reflexivity | split; reflexivity].
  - rewrite (UpdateCoordGeoCache_holds _ _ _ _ _ _ Hh).
    destruct (not_owner g user); [exact Hsame|].
    apply Hput. split; [reflexivity | split; reflexivity].
  - destruct (AddVisitorToGeoCache_holds s key g user x y Hh) as [Hin Hout].
    assert (Hdec : inside g x y \/ ~ inside g x y) by (unfold inside; lia).
    destruct Hdec as [Hi|Ho].
    + rewrite (Hin Hi). apply Hput.
      split; [reflexivity|]. split; [apply prefix_app_r; reflexivity | reflexivity].
    + rewrite (Hout Ho). exact Hsame.
  - rewrite (SwitchTrackable_holds _ _ _ _ Hh).
    destruct (Hput (GeoCache.set_Trackable trackable g)) as (g' & Hh' & Hk);
      [split; [reflexivity | split; reflexivity]|].
    destruct (PutState key (json_Marshal (GeoCache.set_Trackable trackable g)) s)
      as [err s']. exists g'. split; assumption.
  - rewrite (ReportGeoCache_holds _ _ _ _ _ _ Hh). apply Hput.
    split; [reflexivity|]. split; [reflexivity | apply prefix_app_r; reflexivity].
Qed.

End ContractErrors.

(** ** The service *)

Section ServiceFacts.

Import Contract.
Context `{JsonCodec GeoCache.t}.
Variable fmt_Errorf : string -> string.

(** X11: a log-in inside the ranges that the ledger accepts returns the
    trackable the record held, and the ledger is asked for two writes of the
    key: first the record with the caller appended to the visitors, then the
    record as the invocation found it with the caller's trackable in place
    of the one it held. The exchange reads the world state as the invocation
    found it, so its write carries the visitors as they were, without the
    caller; it is the later write, and the record left under the key: the
    trackable is exchanged and the visit is not recorded. *)
Theorem LogUserInCache_admitted (s : Stub) (key : string) (g : GeoCache.t)
    (user : User.t) (x y : Z) (trackable : Trackable.t) :
  holds s key g -> inside g x y -> put_err s key = None ->
  exists s' visited exchanged,
    LogUserInCache fmt_Errorf user key x y trackable s
    = ((Some (GeoCache.Trackable g), None), s')
    /\ visited
       = GeoCache.mk (GeoCache.Id g) (GeoCache.Name g) (GeoCache.Description g)
           (GeoCache.XcoordRange g) (GeoCache.YcoordRange g) (GeoCache.Owner g)
           (GeoCache.Reports g) (GeoCache.Visitors g ++ [user]) (GeoCache.Trackable g)
    /\ exchanged
       = GeoCache.mk (GeoCache.Id g) (GeoCache.Name g) (GeoCache.Description g)
           (GeoCache.XcoordRange g) (GeoCache.YcoordRange g) (GeoCache.Owner g)
           (GeoCache.Reports g) (GeoCache.Visitors g) trackable
    /\ calls s'
       = calls s
         ++ [PutStateCall key (json_Marshal visited);
             PutStateCall key (json_Marshal exchanged)]
    /\ state s' = <[key := json_Marshal exchanged]> (state s)
    /\ holds s' key exchanged
    /\ ReadGeoCache key s' = ((Some exchanged, None), s').
Proof.
  intros Hh Hin Hp.
  set (g1 := GeoCache.mk (GeoCache.Id g) (GeoCache.Name g) (GeoCache.Description g)
               (GeoCache.XcoordRange g) (GeoCache.YcoordRange g) (GeoCache.Owner g)
               (GeoCache.Reports g) (GeoCache.Visitors g ++ [user])
               (GeoCache.Trackable g)).
  set (g2 := GeoCache.mk (GeoCache.Id g) (GeoCache.Name g) (GeoCache.Description g)
               (GeoCache.XcoordRange g) (GeoCache.YcoordRange g) (GeoCache.Owner g)
               (GeoCache.Reports g) (GeoCache.Visitors g) trackable).
  destruct (PutState_accepted s key g1 Hp)
    as (s1 & Hrun1 & _ & Hg1 & Hp1 & _ & Hc1 & _).
  assert (Hh0 : holds (same_invocation s s1) key g).
  { destruct Hh as [Hget Hst]. split; [simpl; rewrite Hg1; exact Hget | exact Hst]. }
  assert (Hp0 : put_err (same_invocation s s1) key = None)
    by (simpl; rewrite Hp1; exact Hp).
  destruct (PutState_accepted (same_invocation s s1) key g2 Hp0)
    as (s2 & Hrun2 & Hst2 & Hg2 & _ & _ & Hc2 & Hsd2).
  assert (Hh2 : holds s2 key g2)
    by (destruct Hh0 as [Hget0 _]; eapply holds_after_put; eassumption).
  exists s2, g1, g2. split; [|split; [reflexivity|split; [reflexivity|]]].
  - unfold LogUserInCache, bind.
    rewrite (proj1 (AddVisitorToGeoCache_holds s key g user x y Hh) Hin).
    change (GeoCache.set_Visitors (GeoCache.Visitors g ++ [user]) g) with g1.
    rewrite Hrun1, (SwitchTrackable_holds _ _ _ _ Hh0).
    change (GeoCache.set_Trackable trackable g) with g2.
    rewrite Hrun2. reflexivity.
  - split; [|split; [exact Hst2|split; [exact Hh2|]]].
    + rewrite Hc2. simpl. rewrite Hc1, <- app_assoc. reflexivity.
    + apply ReadGeoCache_holds. exact Hh2.
Qed.

(** X12: a log-in on a bound or outside the ranges, or on an absent key,
    returns no trackable and the contract's error as the formatter renders
    it, and leaves the stub as it was: no visit is recorded and no trackable
    is exchanged. *)
Theorem LogUserInCache_turned_away (s : Stub) (key : string) (user : User.t)
    (x y : Z) (trackable : Trackable.t) :
  (forall g, holds s key g -> ~ inside g x y ->
     LogUserInCache fmt_Errorf user key x y trackable s
     = ((None, Some (fmt_Errorf Errorf_range)), s))
  /\ (get_err s key = None -> state s !! key = None ->
      LogUserInCache fmt_Errorf user key x y trackable s
      = ((None, Some (fmt_Errorf (Errorf_missing key))), s)).
Proof.
  split.
  - intros g Hh Hout. unfold LogUserInCache, bind.
    rewrite (proj2 (AddVisitorToGeoCache_holds s key g user x y Hh) Hout).
    reflexivity.
  - intros Hg Hs. unfold LogUserInCache, AddVisitorToGeoCache, bind.
    rewrite (GeoCacheExists_absent _ _ Hg Hs). reflexivity.
Qed.

End ServiceFacts.

(** ** More of the earlier revision *)

Lemma holds_written {A : Type} `{JsonCodec A} (s s' : Stub) (key : string) (g : A) :
  get_err s key = None -> get_err s' = get_err s -> stored s' key = Some g ->
  holds s' key g.
Proof. intros Hg Hg' Hs. split; [rewrite Hg'; exact Hg | exact Hs]. Qed.

Section ContractV2More.

Import ContractV2.
Context `{JsonCodec GeoCache.t}.

(** X13: in the earlier revision, on any bound key, the delete turns away
    every caller whose identifier is not empty, the creator of the record
    too, and deletes the key for any caller whose identifier is empty. *)
Theorem DeleteGeoCache_v2_ignores_owner (s : Stub) (key bytes : string) :
  get_err s key = None -> state s !! key = Some bytes ->
  (forall user, User.Id user <> "" ->
     DeleteGeoCache user key s = (Some Errorf_owner_delete, s))
  /\ (forall user, User.Id user = "" -> DeleteGeoCache user key s = DelState key s).
Proof.
  intros Hg Hs. split; intros user Hid; unfold DeleteGeoCache, bind;
    rewrite (GeoCacheExists_bound _ _ _ Hg Hs);
    cbn [negb GeoCache.new GeoCache.Owner User.new User.Id].
  - rewrite bool_decide_eq_true_2 by congruence. reflexivity.
  - rewrite bool_decide_eq_false_2 by (intros Hne; apply Hne; congruence). reflexivity.
Qed.

(** X14: in the earlier revision, a report on any bound key that the ledger
    accepts replaces whatever was stored by an empty record holding that
    one report, with an empty identifier: earlier reports, and every other
    field, are gone. A report after it leaves that later report alone. *)
Theorem ReportGeoCache_v2_keeps_last_only (s : Stub) (key bytes : string)
    (user : User.t) (message : string) :
  get_err s key = None -> state s !! key = Some bytes -> put_err s key = None ->
  exists s' g',
    ReportGeoCache user message key s = (None, s')
    /\ holds s' key g'
    /\ g' = GeoCache.mk "" "" "" (0, 0) (0, 0) (User.mk "" "")
               [Report.mk "" message user] [] (Trackable.mk "" "")
    /\ GeoCache.Reports g' = [Report.mk "" message user]
    /\ ReadGeoCache key s' = ((Some g', None), s')
    /\ forall user' message',
         exists s'' g'',
           ReportGeoCache user' message' key s' = (None, s'')
           /\ holds s'' key g''
           /\ g'' = GeoCache.mk "" "" "" (0, 0) (0, 0) (User.mk "" "")
                      [Report.mk "" message' user'] [] (Trackable.mk "" "")
           /\ GeoCache.Reports g'' = [Report.mk "" message' user']
           /\ ReadGeoCache key s'' = ((Some g'', None), s'').
Proof.
  intros Hg Hs Hp.
  assert (Hread : forall (s0 : Stub) g0, holds s0 key g0 ->
             ReadGeoCache key s0 = ((Some g0, None), s0)).
  { intros s0 g0 Hh0. unfold ReadGeoCache. run_on Hh0. reflexivity. }
  assert (Hstep : forall (s0 : Stub) bytes0 user0 message0,
             get_err s0 key = None -> state s0 !! key = Some bytes0 ->
             put_err s0 key = None ->
             exists s',
               ReportGeoCache user0 message0 key s0 = (None, s')
               /\ holds s' key
                    (GeoCache.mk "" "" "" (0, 0) (0, 0) (User.mk "" "")
                       [Report.mk "" message0 user0] [] (Trackable.mk "" ""))
               /\ get_err s' key = None /\ put_err s' key = None
               /\ state s' !! key
                  = Some (json_Marshal
                            (GeoCache.mk "" "" "" (0, 0) (0, 0) (User.mk "" "")
                               [Report.mk "" message0 user0] [] (Trackable.mk "" "")))).
  { intros s0 bytes0 user0 message0 Hg0 Hs0 Hp0. unfold ReportGeoCache, bind.
    rewrite (GeoCacheExists_bound _ _ _ Hg0 Hs0). cbn [negb].
    destruct (PutState_accepted s0 key
                (GeoCache.mk "" "" "" (0, 0) (0, 0) (User.mk "" "")
                   [Report.mk "" message0 user0] [] (Trackable.mk "" "")) Hp0)
      as (s' & Hrun & Hst & Hge & Hpe & _ & _ & Hsd).
    exists s'. split; [exact Hrun|].
    split; [eapply holds_written; eassumption|].
    split; [rewrite Hge; exact Hg0|]. split; [rewrite Hpe; exact Hp0|].
    rewrite Hst. apply lookup_insert_eq. }
  destruct (Hstep s bytes user message Hg Hs Hp) as (s' & Hrun & Hh & Hg' & Hp' & Hs').
  exists s'. eexists. split; [exact Hrun|]. split; [exact Hh|].
  split; [reflexivity|]. split; [reflexivity|]. split; [exact (Hread _ _ Hh)|].
  intros user' message'.
  destruct (Hstep s' _ user' message' Hg' Hs' Hp') as (s'' & Hrun' & Hh' & _).
  exists s''. eexists. split; [exact Hrun'|]. split; [exact Hh'|].
  split; [reflexivity|]. split; [reflexivity | exact (Hread _ _ Hh')].
Qed.

(** X15: in the earlier revision, once a trackable has been switched on a key
    (with the ledger accepting the write), no visit to it is admitted any
    more, whoever calls and wherever from: the switch returns the empty
    trackable and the record it wrote, the one then under the key, is empty
    but for the trackable passed in, with both ranges from 0 to 0. *)
Theorem SwitchTrackable_v2_closes_cache (s : Stub) (key bytes : string)
    (trackable : Trackable.t) :
  get_err s key = None -> state s !! key = Some bytes -> put_err s key = None ->
  exists s' g',
    SwitchTrackable trackable key s = ((Some (Trackable.mk "" ""), None), s')
    /\ holds s' key g'
    /\ g' = GeoCache.mk "" "" "" (0, 0) (0, 0) (User.mk "" "") [] [] trackable
    /\ GeoCache.XcoordRange g' = (0, 0) /\ GeoCache.YcoordRange g' = (0, 0)
    /\ calls s' = calls s ++ [PutStateCall key (json_Marshal g')]
    /\ ReadGeoCache key s' = ((Some g', None), s')
    /\ forall user x y,
         AddVisitorToGeoCache user key x y s' = (Some Errorf_range, s').
Proof.
  intros Hg Hs Hp. rewrite (SwitchTrackable_v2_bound _ _ _ _ Hg Hs).
  set (g1 := GeoCache.mk "" "" "" (0, 0) (0, 0) (User.mk "" "") [] [] trackable).
  destruct (PutState_accepted s key g1 Hp)
    as (s' & Hrun & Hst & Hge & _ & _ & Hc & Hsd).
  change (GeoCache.set_Trackable trackable GeoCache.new) with g1.
  rewrite Hrun. exists s', g1.
  assert (Hh : holds s' key g1) by (eapply holds_written; eassumption).
  assert (Hg' : get_err s' key = None) by (rewrite Hge; exact Hg).
  assert (Hb : state s' !! key = Some (json_Marshal g1))
    by (rewrite Hst; apply lookup_insert_eq).
  split; [reflexivity|]. split; [exact Hh|]. split; [reflexivity|].
  split; [reflexivity|]. split; [reflexivity|]. split; [exact Hc|]. split.
  - unfold ReadGeoCache. run_on Hh. reflexivity.
  - intros user x y. unfold AddVisitorToGeoCache, bind.
    rewrite (GeoCacheExists_bound _ _ _ Hg' Hb). cbn [negb]. unfold GetState.
    rewrite Hg', Hb. cbn [Unmarshal]. rewrite json_Unmarshal_Marshal.
    unfold g1. cbn [GeoCache.XcoordRange GeoCache.YcoordRange fst snd].
    replace ((x >? 0) && (x <? 0)) with false
      by (symmetry; apply andb_false_iff; rewrite Z.gtb_ltb, !Z.ltb_ge; lia).
    reflexivity.
Qed.

End ContractV2More.

(** ** The first revision *)

Module ContractV1Json.
Import ContractV1.

Lemma parse_GeoCache_emit_v1 (g : GeoCache.t) (k : string) :
  parse_GeoCache (emit_GeoCache g k) = Some (g, k).
Proof. destruct g. unfold parse_GeoCache, emit_GeoCache. json_roundtrip. Qed.

Lemma Unmarshal_Marshal_GeoCache_v1 (g : GeoCache.t) :
  Unmarshal_GeoCache (Marshal_GeoCache g) = Some g.
Proof.
  unfold Unmarshal_GeoCache, Marshal_GeoCache, Json.whole.
  rewrite parse_GeoCache_emit_v1. reflexivity.
Qed.

End ContractV1Json.

Section ContractV1Facts.

Import ContractV1.
Context `{JsonCodec GeoCache.t}.

Lemma geofence_inside_v1 (g : GeoCache.t) (x y : Z) :
  negb ((x >? fst (GeoCache.XcoordRange g)) && (x <? snd (GeoCache.XcoordRange g)))
  || negb ((y >? fst (GeoCache.YcoordRange g)) && (y <? snd (GeoCache.YcoordRange g)))
  = false <-> inside g x y.
Proof.
  unfold inside. rewrite orb_false_iff, !negb_false_iff, !andb_true_iff.
  rewrite !Z.gtb_ltb, !Z.ltb_lt. tauto.
Qed.

Lemma ReadGeoCache_v1_holds (s : Stub) (key : string) (g : GeoCache.t) (x y : Z) :
  holds s key g ->
  (inside g x y -> ReadGeoCache key x y s = ((Some g, None), s))
  /\ (~ inside g x y -> ReadGeoCache key x y s = ((None, Some Errorf_range), s)).
Proof.
  intros Hh. pose proof (geofence_inside_v1 g x y) as Hfence.
  split; intros Hin; unfold ReadGeoCache; run_on Hh;
    destruct (negb _ || negb _); try reflexivity.
  - apply Hfence in Hin. discriminate.
  - destruct Hin. apply Hfence. reflexivity.
Qed.

(** X16: in the first revision, a record created under an absent key (the
    ledger accepting the write) is returned, with the value and the ranges
    given, to a reader strictly inside both ranges, and to no other reader:
    on a bound or outside, the read fails with the out-of-range error. *)
Theorem ReadGeoCache_v1_geofenced (s : Stub) (key value : string)
    (xRange yRange : Z * Z) :
  get_err s key = None -> state s !! key = None -> put_err s key = None ->
  exists s',
    CreateGeoCache key value xRange yRange s = (None, s')
    /\ forall x y,
         (inside (GeoCache.mk value xRange yRange) x y ->
          ReadGeoCache key x y s'
          = ((Some (GeoCache.mk value xRange yRange), None), s'))
         /\ (~ inside (GeoCache.mk value xRange yRange) x y ->
             ReadGeoCache key x y s' = ((None, Some Errorf_range), s')).
Proof.
  intros Hg Hs Hp. unfold CreateGeoCache, bind.
  rewrite (GeoCacheExists_absent _ _ Hg Hs).
  destruct (PutState_accepted s key (GeoCache.mk value xRange yRange) Hp)
    as (s' & Hrun & _ & Hge & _ & _ & _ & Hsd).
  exists s'. split; [exact Hrun|]. intros x y.
  apply ReadGeoCache_v1_holds. eapply holds_written; eassumption.
Qed.

(** X17: in the first revision, an update of the value of any bound key (the
    ledger accepting the write) stores the new value with empty ranges, so
    that every later read of the key, from any position, fails with the
    out-of-range error. *)
Theorem UpdateGeoCache_v1_locks_record (s : Stub) (key bytes newValue : string) :
  get_err s key = None -> state s !! key = Some bytes -> put_err s key = None ->
  exists s',
    UpdateGeoCache key newValue s = (None, s')
    /\ holds s' key (GeoCache.mk newValue (0, 0) (0, 0))
    /\ forall x y, ReadGeoCache key x y s' = ((None, Some Errorf_range), s').
Proof.
  intros Hg Hs Hp. unfold UpdateGeoCache, bind.
  rewrite (GeoCacheExists_bound _ _ _ Hg Hs). cbn [negb].
  destruct (PutState_accepted s key (GeoCache.mk newValue (0, 0) (0, 0)) Hp)
    as (s' & Hrun & _ & Hge & _ & _ & _ & Hsd).
  assert (Hh : holds s' key (GeoCache.mk newValue (0, 0) (0, 0)))
    by (eapply holds_written; eassumption).
  exists s'. split; [exact Hrun|]. split; [exact Hh|].
  intros x y. apply (ReadGeoCache_v1_holds s' key _ x y Hh).
  unfold inside. simpl. lia.
Qed.

(** X18: in the first revision, an update of the coordinates of any bound key
    (the ledger accepting the write) stores the two ranges with an empty
    value: the value that was stored is gone, and the new value passed in is
    not stored either. *)
Theorem UpdateCoordGeoCache_v1_loses_value (s : Stub) (key bytes newValue : string)
    (xRange yRange : Z * Z) :
  get_err s key = None -> state s !! key = Some bytes -> put_err s key = None ->
  exists s',
    UpdateCoordGeoCache key newValue xRange yRange s = (None, s')
    /\ holds s' key (GeoCache.mk "" xRange yRange).
Proof.
  intros Hg Hs Hp. unfold UpdateCoordGeoCache, bind.
  rewrite (GeoCacheExists_bound _ _ _ Hg Hs). cbn [negb].
  destruct (PutState_accepted s key (GeoCache.mk "" xRange yRange) Hp)
    as (s' & Hrun & _ & Hge & _ & _ & _ & Hsd).
  exists s'. split; [exact Hrun|]. eapply holds_written; eassumption.
Qed.

(** X19: in the first revision, the delete takes no caller: on any bound key
    (the ledger accepting the delete) it removes the key, after which a read
    from any position and a second delete fail with the does-not-exist
    error. *)
Theorem DeleteGeoCache_v1_open (s : Stub) (key bytes : string) :
  get_err s key = None -> state s !! key = Some bytes -> del_err s key = None ->
  exists s',
    DeleteGeoCache key s = (None, s')
    /\ state s' = delete key (state s)
    /\ (forall x y, ReadGeoCache key x y s' = ((None, Some (Errorf_missing key)), s'))
    /\ DeleteGeoCache key s' = (Some (Errorf_missing key), s').
Proof.
  intros Hg Hs Hd. unfold DeleteGeoCache at 1. unfold bind.
  rewrite (GeoCacheExists_bound _ _ _ Hg Hs). cbn [negb].
  destruct (DelState_accepted s key Hd) as (s' & Hrun & Hst & Hge & _).
  exists s'. split; [exact Hrun|]. split; [exact Hst|].
  assert (Hg' : get_err s' key = None) by (rewrite Hge; exact Hg).
  assert (Hgone : state s' !! key = None) by (rewrite Hst; apply lookup_delete_eq).
  split; [intros x y|]; unfold ReadGeoCache, DeleteGeoCache, bind;
    rewrite (GeoCacheExists_absent _ _ Hg' Hgone); reflexivity.
Qed.

End ContractV1Facts.

(** * The contract on concrete ledgers *)

#[export] Instance GeoCache_json : JsonCodec Contract.GeoCache.t := {|
  json_Marshal := Contract.Marshal_GeoCache;
  json_Unmarshal := Contract.Unmarshal_GeoCache;
  json_Unmarshal_Marshal := ContractJson.Unmarshal_Marshal_GeoCache
|}.

#[export] Instance GeoCache_v2_json : JsonCodec ContractV2.GeoCache.t := {|
  json_Marshal := ContractV2.Marshal_GeoCache;
  json_Unmarshal := ContractV2.Unmarshal_GeoCache;
  json_Unmarshal_Marshal := ContractV2Json.Unmarshal_Marshal_GeoCache_v2
|}.

(** Some sequence of draws for the random strings. *)
Definition draws (i : nat) : nat := (7 * i + 3)%nat.

(** The stub of the tests ([configureStub]): [statebad] cannot be read,
    [missingkey] is absent, [existingkey] holds bytes that are no record,
    [geoCachekey] holds [testGeoCache], owned by the identifier 123 under the
    salt 123. *)
Definition getStateError : string := "world state get error".

Definition testUser : Contract.User.t := Contract.User.mk "123" "TestUser" "123".

Definition storedUser : Contract.User.t :=
  Contract.User.mk "4ebe56ee0099cc1af664ad67b3410c2b0a18cfba" "TestUser" "123".

Definition testGeoCache : Contract.GeoCache.t :=
  Contract.GeoCache.mk "" "set value" "" (5, 10) (5, 10) storedUser
    [Contract.Report.mk "testId" "TestMessage" storedUser] []
    (Contract.Trackable.mk "testId" "testValue").

Definition configureStub : Stub :=
  mkStub
    (<["geoCachekey" := json_Marshal testGeoCache]> (<["existingkey" := "some value"]> ∅))
    (fun key => if decide (key = "statebad") then Some getStateError else None)
    (fun _ => None) (fun _ => None) [].

(** Another caller. *)
Definition otherUser : Contract.User.t := Contract.User.mk "456" "OtherUser" "".

(** The ledger of the earlier revision after the creation the transaction
    data describe: the user 123 creates [testId]. *)
Definition owner_v2 : ContractV2.User.t := ContractV2.User.mk "123" "testName".

Definition stub_v2 : Stub :=
  snd (ContractV2.CreateGeoCache draws owner_v2 "testId" "testName" "testDescription"
         (5, 10) (5, 10) empty_stub).

Definition created_v2 : ContractV2.GeoCache.t :=
  ContractV2.GeoCache.mk "" "testName" "testDescription" (5, 10) (5, 10) owner_v2 [] []
    (ContractV2.Trackable.mk (generateRandomString draws)
       "You are the first, who discovered this cache!").

Example holds_testGeoCache : holds configureStub "geoCachekey" testGeoCache.
Proof. split; vm_compute; reflexivity. Qed.

Example owner_of_testGeoCache :
  Contract.not_owner testGeoCache testUser = false
  /\ Contract.not_owner testGeoCache otherUser = true.
Proof.
  split.
  - apply not_owner_false. exact myHash_fixture.
  - vm_compute. reflexivity.
Qed.

Example holds_created_v2 : holds stub_v2 "testId" created_v2.
Proof. split; vm_compute; reflexivity. Qed.

(** ** The tests of the repository, on the model *)

(** [TestUpdateGeoCache]: the update by the user 123 succeeds and [PutState]
    is called once, on [geoCachekey], with the record as it was stored but
    for the new name and description. *)
Example TestUpdateGeoCache :
  let (err, s') :=
    Contract.UpdateGeoCache testUser "geoCachekey" "new value" "newDescription"
      configureStub in
  err = None
  /\ calls s'
     = [PutStateCall "geoCachekey"
          (json_Marshal
             (Contract.GeoCache.mk "" "new value" "newDescription" (5, 10) (5, 10)
                storedUser [Contract.Report.mk "testId" "TestMessage" storedUser] []
                (Contract.Trackable.mk "testId" "testValue")))].
Proof. vm_compute. split; reflexivity. Qed.

(** [TestSwitchTrackable]: the switch returns the trackable that was stored. *)
Example TestSwitchTrackable :
  fst (Contract.SwitchTrackable (Contract.Trackable.mk "testId" "testValue")
         "geoCachekey" configureStub)
  = (Some (Contract.Trackable.mk "testId" "testValue"), None).
Proof. vm_compute. reflexivity. Qed.

(** [TestReadGeoCache], [TestCreateGeoCache]: bytes that are no record, a
    key that cannot be read. *)
Example TestReadGeoCache_existingkey :
  Contract.ReadGeoCache "existingkey" configureStub
  = ((None, Some "Could not unmarshal world state data to type GeoCache"),
     configureStub).
Proof. vm_compute. reflexivity. Qed.

Example TestCreateGeoCache_statebad :
  Contract.CreateGeoCache draws draws testUser "statebad" "some value"
    "testDescription" (5, 10) (5, 10) "asd" configureStub
  = (Some "Could not read from world state. world state get error", configureStub).
Proof. vm_compute. reflexivity. Qed.

(** ** The earlier revision at work *)

(** C4, on the earlier revision: on the ledger where the user 123 created
    [testId], [UpdateGeoCache] turns the owner away; called with the empty
    identifier it succeeds, and the record read back afterwards has lost its
    ranges, owner and trackable; [UpdateCoordGeoCache] succeeds for any
    caller and the record read back has lost its name, description, owner
    and trackable. The record read from the world state is never used. *)
Theorem UpdateGeoCache_v2_loses_fields :
  fst (ContractV2.ReadGeoCache "testId" stub_v2) = (Some created_v2, None)
  /\ ContractV2.UpdateGeoCache "123" "testId" "newName" "newDescription" stub_v2
     = (Some Errorf_owner_update, stub_v2)
  /\ (let (err, s') :=
        ContractV2.UpdateGeoCache "" "testId" "newName" "newDescription" stub_v2 in
      err = None
      /\ fst (ContractV2.ReadGeoCache "testId" s')
         = (Some (ContractV2.GeoCache.mk "" "newName" "newDescription" (0, 0) (0, 0)
                    (ContractV2.User.mk "" "") [] [] (ContractV2.Trackable.mk "" "")),
            None))
  /\ (let (err, s') :=
        ContractV2.UpdateCoordGeoCache "testId" "" (4, 10) (4, 10) stub_v2 in
      err = None
      /\ fst (ContractV2.ReadGeoCache "testId" s')
         = (Some (ContractV2.GeoCache.mk "" "" "" (4, 10) (4, 10)
                    (ContractV2.User.mk "" "") [] [] (ContractV2.Trackable.mk "" "")),
            None)).
Proof. vm_compute. repeat split; reflexivity. Qed.

(** C6, on the earlier revision: on the same ledger, switching the
    trackable 456 in returns the empty trackable, not the stored one, and the
    record read back has lost every other field; switching the original one
    back in returns the empty trackable again, not 456, and the record is
    not restored. *)
Theorem SwitchTrackable_v2_loses_record :
  let T0 := ContractV2.GeoCache.Trackable created_v2 in
  let T1 := ContractV2.Trackable.mk "456" "testValue" in
  let (r1, s1) := ContractV2.SwitchTrackable T1 "testId" stub_v2 in
  let (r2, s2) := ContractV2.SwitchTrackable T0 "testId" s1 in
  fst (ContractV2.ReadGeoCache "testId" stub_v2) = (Some created_v2, None)
  /\ r1 = (Some (ContractV2.Trackable.mk "" ""), None)
  /\ Some T0 <> fst r1
  /\ fst (ContractV2.ReadGeoCache "testId" s1)
     = (Some (ContractV2.GeoCache.mk "" "" "" (0, 0) (0, 0) (ContractV2.User.mk "" "")
                [] [] T1), None)
  /\ r2 = (Some (ContractV2.Trackable.mk "" ""), None)
  /\ Some T1 <> fst r2
  /\ fst (ContractV2.ReadGeoCache "testId" s2) <> (Some created_v2, None).
Proof. vm_compute. repeat split; try reflexivity; discriminate. Qed.

(** ** The theorems at work on the stub of the tests *)

(** The commitments of 123 and of 456 differ under the salt the draws give. *)
Example commitments_differ :
  myHash (Contract.User.Id otherUser +:+ generateRandomString draws)
  <> myHash (Contract.User.Id testUser +:+ generateRandomString draws).
Proof. vm_compute. discriminate. Qed.

(** C1 at work: the user 123 creates [missingkey]; the user 456 is turned away. *)
Lemma ownership_gate_witness :
  get_err configureStub "missingkey" = None
  /\ state configureStub !! "missingkey" = None
  /\ put_err configureStub "missingkey" = None
  /\ exists s' g,
       Contract.CreateGeoCache draws draws testUser "missingkey" "some value"
         "testDescription" (5, 10) (5, 10) "asd" configureStub = (None, s')
       /\ holds s' "missingkey" g
       /\ Contract.not_owner g testUser = false
       /\ Contract.DeleteGeoCache otherUser "missingkey" s'
          = (Some Errorf_owner_update, s')
       /\ Contract.GetReports otherUser "missingkey" s'
          = (([], Some Errorf_owner_reports), s').
Proof.
  assert (Hg : get_err configureStub "missingkey" = None) by reflexivity.
  assert (Hs : state configureStub !! "missingkey" = None)
    by (vm_compute; reflexivity).
  assert (Hp : put_err configureStub "missingkey" = None) by reflexivity.
  split; [exact Hg|]. split; [exact Hs|]. split; [exact Hp|].
  destruct (ownership_gate configureStub "missingkey" draws draws testUser
              "some value" "testDescription" (5, 10) (5, 10) "asd" Hg Hs Hp)
    as (s' & g & Hrun & Hh & _ & _ & Ho & HB).
  destruct (HB otherUser commitments_differ) as (_ & _ & _ & Hdel & Hrep).
  exists s', g. split; [exact Hrun|]. split; [exact Hh|]. split; [exact Ho|].
  split; [exact Hdel | exact Hrep].
Defined.

(** C2 at work, on the ranges 5 to 10 of the tests: (6,6) is let in, and
    the record then under the key is the one of the tests with the caller as
    its one visitor, which is what [TestAddVisitorToGeoCache] expects
    [PutState] to be called with; (5,6), (10,6) and (1,1) are not let in. *)
Lemma geofence_strict_witness :
  holds configureStub "geoCachekey" testGeoCache
  /\ (exists s',
        Contract.AddVisitorToGeoCache testUser "geoCachekey" 6 6 configureStub
        = (None, s')
        /\ holds s' "geoCachekey"
             (Contract.GeoCache.mk "" "set value" "" (5, 10) (5, 10) storedUser
                [Contract.Report.mk "testId" "TestMessage" storedUser] [testUser]
                (Contract.Trackable.mk "testId" "testValue"))
        /\ calls s'
           = [PutStateCall "geoCachekey"
                (json_Marshal
                   (Contract.GeoCache.mk "" "set value" "" (5, 10) (5, 10) storedUser
                      [Contract.Report.mk "testId" "TestMessage" storedUser] [testUser]
                      (Contract.Trackable.mk "testId" "testValue")))])
  /\ fst (Contract.AddVisitorToGeoCache testUser "geoCachekey" 6 6 configureStub) = None
  /\ Contract.AddVisitorToGeoCache testUser "geoCachekey" 5 6 configureStub
     = (Some Errorf_range, configureStub)
  /\ Contract.AddVisitorToGeoCache testUser "geoCachekey" 10 6 configureStub
     = (Some Errorf_range, configureStub)
  /\ Contract.AddVisitorToGeoCache testUser "geoCachekey" 1 1 configureStub
     = (Some Errorf_range, configureStub).
Proof.
  assert (Hin : inside testGeoCache 6 6) by (unfold inside; simpl; lia).
  split; [exact holds_testGeoCache|]. split; [|split; [|split; [|split]]].
  - destruct (proj1 (geofence_strict configureStub "geoCachekey" testGeoCache testUser
                       6 6 holds_testGeoCache) Hin eq_refl)
      as (s' & g' & Hrun & Hh & Hg' & _ & _ & _ & Hc).
    exists s'. rewrite Hg' in Hh, Hc.
    split; [exact Hrun|]. split; [exact Hh | exact Hc].
  - apply (geofence_strict configureStub "geoCachekey" testGeoCache testUser 6 6
             holds_testGeoCache); [reflexivity | exact Hin].
  - apply (geofence_strict configureStub "geoCachekey" testGeoCache testUser 5 6
             holds_testGeoCache). unfold inside. simpl. lia.
  - apply (geofence_strict configureStub "geoCachekey" testGeoCache testUser 10 6
             holds_testGeoCache). unfold inside. simpl. lia.
  - apply (geofence_strict configureStub "geoCachekey" testGeoCache testUser 1 1
             holds_testGeoCache). unfold inside. simpl. lia.
Defined.

(** C5 at work: [existingkey] is bound. *)
Lemma create_on_live_key_rejected_witness :
  fst (GeoCacheExists "existingkey" configureStub) = (true, None)
  /\ Contract.CreateGeoCache draws draws testUser "existingkey" "some value"
       "testDescription" (5, 10) (5, 10) "asd" configureStub
     = (Some "The asset existingkey already exists", configureStub).
Proof.
  assert (Hlive : fst (GeoCacheExists "existingkey" configureStub) = (true, None))
    by (vm_compute; reflexivity).
  split; [exact Hlive|].
  exact (create_on_live_key_rejected configureStub "existingkey" draws draws testUser
           "some value" "testDescription" (5, 10) (5, 10) "asd" Hlive).
Defined.


(** C8 at work: [missingkey] is absent. *)
Lemma absent_key_rejected_witness :
  get_err configureStub "missingkey" = None
  /\ state configureStub !! "missingkey" = None
  /\ Contract.ReadGeoCache "missingkey" configureStub
     = ((None, Some "The asset missingkey does not exist"), configureStub)
  /\ Contract.DeleteGeoCache testUser "missingkey" configureStub
     = (Some "The asset missingkey does not exist", configureStub)
  /\ Contract.AddVisitorToGeoCache testUser "missingkey" 6 6 configureStub
     = (Some "The asset missingkey does not exist", configureStub).
Proof.
  assert (Hg : get_err configureStub "missingkey" = None) by reflexivity.
  assert (Hs : state configureStub !! "missingkey" = None)
    by (vm_compute; reflexivity).
  split; [exact Hg|]. split; [exact Hs|].
  destruct (absent_key_rejected configureStub "missingkey" Hg Hs)
    as (Hread & _ & _ & Hdel & _ & _ & Hvisit).
  split; [exact Hread|]. split; [exact (Hdel testUser) | exact (Hvisit testUser 6 6)].
Defined.

(** C9 at work: the user 123 deletes [geoCachekey], twice. *)
Lemma delete_lifecycle_witness :
  holds configureStub "geoCachekey" testGeoCache
  /\ Contract.not_owner testGeoCache testUser = false
  /\ del_err configureStub "geoCachekey" = None
  /\ exists s',
       Contract.DeleteGeoCache testUser "geoCachekey" configureStub = (None, s')
       /\ GeoCacheExists "geoCachekey" s' = ((false, None), s')
       /\ Contract.DeleteGeoCache testUser "geoCachekey" s'
          = (Some "The asset geoCachekey does not exist", s').
Proof.
  split; [exact holds_testGeoCache|]. split; [exact (proj1 owner_of_testGeoCache)|].
  split; [reflexivity|].
  destruct (delete_lifecycle configureStub "geoCachekey" testGeoCache testUser
              holds_testGeoCache (proj1 owner_of_testGeoCache) eq_refl)
    as (s' & Hdel & _ & Hex & Hagain).
  exists s'. split; [exact Hdel|]. split; [exact Hex | exact (Hagain testUser)].
Defined.

(** C10 at work: the x range from 10 to 5. *)
Lemma empty_range_never_visited_witness :
  get_err configureStub "missingkey" = None
  /\ state configureStub !! "missingkey" = None
  /\ put_err configureStub "missingkey" = None
  /\ (forall x, ~ (fst (10, 5) < x < snd (10, 5)))
  /\ exists s',
       Contract.CreateGeoCache draws draws testUser "missingkey" "some value"
         "testDescription" (10, 5) (5, 10) "asd" configureStub = (None, s')
       /\ Contract.AddVisitorToGeoCache otherUser "missingkey" 7 7 s'
          = (Some Errorf_range, s').
Proof.
  assert (Hg : get_err configureStub "missingkey" = None) by reflexivity.
  assert (Hs : state configureStub !! "missingkey" = None)
    by (vm_compute; reflexivity).
  assert (Hp : put_err configureStub "missingkey" = None) by reflexivity.
  assert (Hempty : forall x, ~ (fst (10, 5) < x < snd (10, 5)))
    by (intros x; simpl; lia).
  split; [exact Hg|]. split; [exact Hs|]. split; [exact Hp|]. split; [exact Hempty|].
  destruct (empty_range_never_visited configureStub "missingkey" draws draws testUser
              "some value" "testDescription" (10, 5) (5, 10) "asd" Hg Hs Hp)
    as (s' & g & Hrun & _ & _ & _ & Hnever).
  exists s'. split; [exact Hrun | exact (Hnever Hempty otherUser 7 7)].
Defined.

(** ** More ledgers *)

#[export] Instance GeoCache_v1_json : JsonCodec ContractV1.GeoCache.t := {|
  json_Marshal := ContractV1.Marshal_GeoCache;
  json_Unmarshal := ContractV1.Unmarshal_GeoCache;
  json_Unmarshal_Marshal := ContractV1Json.Unmarshal_Marshal_GeoCache_v1
|}.

(** The stub of the tests with a ledger that refuses every write. *)
Definition refusingStub : Stub :=
  mkStub (state configureStub) (get_err configureStub)
    (fun _ => Some "ledger is down") (del_err configureStub) [].

(** The ledger of the first revision after one creation. *)
Definition stub_v1 : Stub :=
  snd (ContractV1.CreateGeoCache "testId" "some value" (5, 10) (5, 10) empty_stub).

Example holds_refusing : holds refusingStub "geoCachekey" testGeoCache.
Proof. split; vm_compute; reflexivity. Qed.

Example bound_v2 :
  state stub_v2 !! "testId" = Some (json_Marshal created_v2).
Proof. vm_compute. reflexivity. Qed.

Example bound_v1 :
  state stub_v1 !! "testId"
  = Some (json_Marshal (ContractV1.GeoCache.mk "some value" (5, 10) (5, 10))).
Proof. vm_compute. reflexivity. Qed.

Example inside_testGeoCache : inside testGeoCache 6 6.
Proof. unfold inside. simpl. lia. Qed.

(** X5 at work: [statebad] cannot be read. *)
Lemma unreadable_key_rejected_witness :
  get_err configureStub "statebad" = Some getStateError
  /\ GeoCacheExists "statebad" configureStub = ((false, Some getStateError), configureStub)
  /\ Contract.ReadGeoCache "statebad" configureStub
     = ((None, Some "Could not read from world state. world state get error"),
        configureStub).
Proof.
  assert (Hg : get_err configureStub "statebad" = Some getStateError) by reflexivity.
  split; [exact Hg|].
  destruct (unreadable_key_rejected configureStub "statebad" getStateError Hg)
    as (Hex & _ & Hread & _).
  split; [exact Hex | exact Hread].
Defined.

(** X6 at work: [existingkey] holds bytes that are no record. *)
Lemma undecodable_record_rejected_witness :
  get_err configureStub "existingkey" = None
  /\ state configureStub !! "existingkey" = Some "some value"
  /\ json_Unmarshal (A := Contract.GeoCache.t) "some value" = None
  /\ Contract.UpdateGeoCache testUser "existingkey" "new value" "newDescription"
       configureStub = (Some Errorf_unmarshal, configureStub).
Proof.
  assert (Hg : get_err configureStub "existingkey" = None) by reflexivity.
  assert (Hs : state configureStub !! "existingkey" = Some "some value")
    by (vm_compute; reflexivity).
  assert (Hu : json_Unmarshal (A := Contract.GeoCache.t) "some value" = None)
    by (vm_compute; reflexivity).
  split; [exact Hg|]. split; [exact Hs|]. split; [exact Hu|].
  destruct (undecodable_record_rejected configureStub "existingkey" "some value"
              Hg Hs Hu) as (_ & Hupd & _).
  exact (Hupd testUser "new value" "newDescription").
Defined.

(** X7 at work: the user 123 creates [missingkey]. *)
Lemma create_then_read_witness :
  get_err configureStub "missingkey" = None
  /\ state configureStub !! "missingkey" = None
  /\ put_err configureStub "missingkey" = None
  /\ exists s',
       Contract.CreateGeoCache draws draws testUser "missingkey" "some value"
         "testDescription" (5, 10) (5, 10) "asd" configureStub = (None, s')
       /\ GeoCacheExists "missingkey" s' = ((true, None), s')
       /\ Contract.ReadGeoCache "missingkey" s'
          = ((Some (created draws draws testUser "some value" "testDescription"
                      (5, 10) (5, 10) "asd"), None), s').
Proof.
  assert (Hg : get_err configureStub "missingkey" = None) by reflexivity.
  assert (Hs : state configureStub !! "missingkey" = None)
    by (vm_compute; reflexivity).
  assert (Hp : put_err configureStub "missingkey" = None) by reflexivity.
  split; [exact Hg|]. split; [exact Hs|]. split; [exact Hp|].
  destruct (create_then_read configureStub "missingkey" draws draws testUser
              "some value" "testDescription" (5, 10) (5, 10) "asd" Hg Hs Hp)
    as (_ & s' & Hrun & _ & Hex & Hread & _).
  exists s'. split; [exact Hrun|]. split; [exact Hex | exact Hread].
Defined.

(** X8 at work: a visit inside the ranges while the ledger is down. *)
Lemma refused_write_keeps_record_witness :
  holds refusingStub "geoCachekey" testGeoCache
  /\ put_err refusingStub "geoCachekey" = Some "ledger is down"
  /\ Contract.not_owner testGeoCache testUser = false
  /\ inside testGeoCache 6 6
  /\ fst (Contract.AddVisitorToGeoCache otherUser "geoCachekey" 6 6 refusingStub)
     = Some "ledger is down"
  /\ holds (snd (Contract.AddVisitorToGeoCache otherUser "geoCachekey" 6 6 refusingStub))
       "geoCachekey" testGeoCache.
Proof.
  split; [exact holds_refusing|]. split; [reflexivity|].
  split; [exact (proj1 owner_of_testGeoCache)|]. split; [exact inside_testGeoCache|].
  destruct (refused_write_keeps_record refusingStub "geoCachekey" "ledger is down"
              testGeoCache testUser otherUser 6 6 holds_refusing eq_refl
              (proj1 owner_of_testGeoCache) inside_testGeoCache)
    as (_ & _ & (Herr & _ & Hh) & _).
  split; [exact Herr | exact Hh].
Defined.

(** X9 at work: a switch while the ledger is down. *)
Lemma refused_switch_returns_trackable_witness :
  holds refusingStub "geoCachekey" testGeoCache
  /\ put_err refusingStub "geoCachekey" = Some "ledger is down"
  /\ exists s',
       Contract.SwitchTrackable (Contract.Trackable.mk "456" "testValue") "geoCachekey"
         refusingStub
       = ((Some (Contract.Trackable.mk "testId" "testValue"), Some "ledger is down"), s')
       /\ holds s' "geoCachekey" testGeoCache.
Proof.
  split; [exact holds_refusing|]. split; [reflexivity|].
  destruct (refused_switch_returns_trackable refusingStub "geoCachekey" "ledger is down"
              testGeoCache (Contract.Trackable.mk "456" "testValue") holds_refusing
              eq_refl) as (s' & Hrun & _ & Hh).
  exists s'. split; [exact Hrun | exact Hh].
Defined.

(** X10 at work: a report by another user on the record of the tests. *)
Lemma owner_kept_logs_append_only_witness :
  holds configureStub "geoCachekey" testGeoCache
  /\ exists g',
       holds (snd (Contract.ReportGeoCache draws otherUser "reportMessage" "geoCachekey"
                     configureStub)) "geoCachekey" g'
       /\ kept testGeoCache g'.
Proof.
  split; [exact holds_testGeoCache|].
  exact (proj2 (proj2 (proj2 (proj2
           (owner_kept_logs_append_only configureStub "geoCachekey" testGeoCache
              otherUser draws "newName" "newDescription" "reportMessage" (4, 10) (4, 10)
              6 6 (Contract.Trackable.mk "456" "testValue") holds_testGeoCache))))).
Defined.

(** X11 at work: another user logs in at (6,6) with the trackable 456; the
    record left under the key holds the trackable 456 and no visitor. *)
Lemma LogUserInCache_admitted_witness :
  holds configureStub "geoCachekey" testGeoCache
  /\ inside testGeoCache 6 6
  /\ put_err configureStub "geoCachekey" = None
  /\ exists s',
       LogUserInCache (fun e => e) otherUser "geoCachekey" 6 6
         (Contract.Trackable.mk "456" "testValue") configureStub
       = ((Some (Contract.Trackable.mk "testId" "testValue"), None), s')
       /\ calls s'
          = [PutStateCall "geoCachekey"
               (json_Marshal
                  (Contract.GeoCache.mk "" "set value" "" (5, 10) (5, 10) storedUser
                     [Contract.Report.mk "testId" "TestMessage" storedUser] [otherUser]
                     (Contract.Trackable.mk "testId" "testValue")));
             PutStateCall "geoCachekey"
               (json_Marshal
                  (Contract.GeoCache.mk "" "set value" "" (5, 10) (5, 10) storedUser
                     [Contract.Report.mk "testId" "TestMessage" storedUser] []
                     (Contract.Trackable.mk "456" "testValue")))]
       /\ Contract.ReadGeoCache "geoCachekey" s'
          = ((Some (Contract.GeoCache.mk "" "set value" "" (5, 10) (5, 10) storedUser
                      [Contract.Report.mk "testId" "TestMessage" storedUser] []
                      (Contract.Trackable.mk "456" "testValue")), None), s').
Proof.
  split; [exact holds_testGeoCache|]. split; [exact inside_testGeoCache|].
  split; [reflexivity|].
  destruct (LogUserInCache_admitted (fun e => e) configureStub "geoCachekey"
              testGeoCache otherUser 6 6 (Contract.Trackable.mk "456" "testValue")
              holds_testGeoCache inside_testGeoCache eq_refl)
    as (s' & g1 & g2 & Hrun & Hg1 & Hg2 & Hc & _ & _ & Hread).
  exists s'. rewrite Hg1, Hg2 in Hc. rewrite Hg2 in Hread.
  split; [exact Hrun|]. split; [exact Hc | exact Hread].
Defined.

(** X13 at work: the creator 123 cannot delete [testId]; the empty identifier can. *)
Lemma DeleteGeoCache_v2_ignores_owner_witness :
  get_err stub_v2 "testId" = None
  /\ state stub_v2 !! "testId" = Some (json_Marshal created_v2)
  /\ ContractV2.DeleteGeoCache owner_v2 "testId" stub_v2
     = (Some Errorf_owner_delete, stub_v2)
  /\ ContractV2.DeleteGeoCache (ContractV2.User.mk "" "anyone") "testId" stub_v2
     = DelState "testId" stub_v2.
Proof.
  assert (Hg : get_err stub_v2 "testId" = None) by reflexivity.
  split; [exact Hg|]. split; [exact bound_v2|].
  destruct (DeleteGeoCache_v2_ignores_owner stub_v2 "testId" _ Hg bound_v2)
    as (Hlocked & Hopen).
  split; [apply Hlocked; discriminate | apply Hopen; reflexivity].
Defined.

(** X14 at work: two reports on [testId]; the second alone is left. *)
Lemma ReportGeoCache_v2_keeps_last_only_witness :
  get_err stub_v2 "testId" = None
  /\ state stub_v2 !! "testId" = Some (json_Marshal created_v2)
  /\ put_err stub_v2 "testId" = None
  /\ exists s' s'',
       ContractV2.ReportGeoCache owner_v2 "first" "testId" stub_v2 = (None, s')
       /\ ContractV2.ReportGeoCache owner_v2 "second" "testId" s' = (None, s'')
       /\ ContractV2.ReadGeoCache "testId" s''
          = ((Some (ContractV2.GeoCache.mk "" "" "" (0, 0) (0, 0)
                      (ContractV2.User.mk "" "")
                      [ContractV2.Report.mk "" "second" owner_v2] []
                      (ContractV2.Trackable.mk "" "")), None), s'').
Proof.
  assert (Hg : get_err stub_v2 "testId" = None) by reflexivity.
  assert (Hp : put_err stub_v2 "testId" = None) by reflexivity.
  split; [exact Hg|]. split; [exact bound_v2|]. split; [exact Hp|].
  destruct (ReportGeoCache_v2_keeps_last_only stub_v2 "testId" _ owner_v2 "first"
              Hg bound_v2 Hp) as (s' & g' & Hrun & _ & _ & _ & _ & Hnext).
  destruct (Hnext owner_v2 "second") as (s'' & g'' & Hrun' & _ & Hg'' & _ & Hread).
  exists s', s''. rewrite Hg'' in Hread.
  split; [exact Hrun|]. split; [exact Hrun' | exact Hread].
Defined.

(** X15 at work: after one switch on [testId], the record under the key has
    the ranges 0 to 0 and a visit at (6,6) is refused. *)
Lemma SwitchTrackable_v2_closes_cache_witness :
  get_err stub_v2 "testId" = None
  /\ state stub_v2 !! "testId" = Some (json_Marshal created_v2)
  /\ put_err stub_v2 "testId" = None
  /\ exists s',
       ContractV2.SwitchTrackable (ContractV2.Trackable.mk "456" "testValue") "testId"
         stub_v2 = ((Some (ContractV2.Trackable.mk "" ""), None), s')
       /\ ContractV2.ReadGeoCache "testId" s'
          = ((Some (ContractV2.GeoCache.mk "" "" "" (0, 0) (0, 0)
                      (ContractV2.User.mk "" "") [] []
                      (ContractV2.Trackable.mk "456" "testValue")), None), s')
       /\ ContractV2.AddVisitorToGeoCache owner_v2 "testId" 6 6 s'
          = (Some Errorf_range, s').
Proof.
  assert (Hg : get_err stub_v2 "testId" = None) by reflexivity.
  assert (Hp : put_err stub_v2 "testId" = None) by reflexivity.
  split; [exact Hg|]. split; [exact bound_v2|]. split; [exact Hp|].
  destruct (SwitchTrackable_v2_closes_cache stub_v2 "testId" _
              (ContractV2.Trackable.mk "456" "testValue") Hg bound_v2 Hp)
    as (s' & g' & Hrun & _ & Hg' & _ & _ & _ & Hread & Hclosed).
  exists s'. rewrite Hg' in Hread.
  split; [exact Hrun|]. split; [exact Hread | exact (Hclosed owner_v2 6 6)].
Defined.

(** X16 at work: a record with the ranges 5 to 10, read from (7,7) and from (5,7). *)
Lemma ReadGeoCache_v1_geofenced_witness :
  get_err empty_stub "testId" = None
  /\ state empty_stub !! "testId" = None
  /\ put_err empty_stub "testId" = None
  /\ exists s',
       ContractV1.CreateGeoCache "testId" "some value" (5, 10) (5, 10) empty_stub
       = (None, s')
       /\ ContractV1.ReadGeoCache "testId" 7 7 s'
          = ((Some (ContractV1.GeoCache.mk "some value" (5, 10) (5, 10)), None), s')
       /\ ContractV1.ReadGeoCache "testId" 5 7 s' = ((None, Some Errorf_range), s').
Proof.
  assert (Hs : state empty_stub !! "testId" = None) by (vm_compute; reflexivity).
  split; [reflexivity|]. split; [exact Hs|]. split; [reflexivity|].
  destruct (ReadGeoCache_v1_geofenced empty_stub "testId" "some value" (5, 10) (5, 10)
              eq_refl Hs eq_refl) as (s' & Hrun & Hread).
  exists s'. split; [exact Hrun|]. split.
  - apply (Hread 7 7). unfold ContractV1.inside. simpl. lia.
  - apply (Hread 5 7). unfold ContractV1.inside. simpl. lia.
Defined.

(** X17 at work: after an update of the value, (7,7) cannot read [testId]. *)
Lemma UpdateGeoCache_v1_locks_record_witness :
  get_err stub_v1 "testId" = None
  /\ state stub_v1 !! "testId"
     = Some (json_Marshal (ContractV1.GeoCache.mk "some value" (5, 10) (5, 10)))
  /\ put_err stub_v1 "testId" = None
  /\ exists s',
       ContractV1.UpdateGeoCache "testId" "new value" stub_v1 = (None, s')
       /\ ContractV1.ReadGeoCache "testId" 7 7 s' = ((None, Some Errorf_range), s').
Proof.
  assert (Hg : get_err stub_v1 "testId" = None) by reflexivity.
  assert (Hp : put_err stub_v1 "testId" = None) by reflexivity.
  split; [exact Hg|]. split; [exact bound_v1|]. split; [exact Hp|].
  destruct (UpdateGeoCache_v1_locks_record stub_v1 "testId" _ "new value" Hg bound_v1 Hp)
    as (s' & Hrun & _ & Hlocked).
  exists s'. split; [exact Hrun | exact (Hlocked 7 7)].
Defined.

(** X18 at work: after an update of the coordinates, the value is empty. *)
Lemma UpdateCoordGeoCache_v1_loses_value_witness :
  get_err stub_v1 "testId" = None
  /\ state stub_v1 !! "testId"
     = Some (json_Marshal (ContractV1.GeoCache.mk "some value" (5, 10) (5, 10)))
  /\ put_err stub_v1 "testId" = None
  /\ exists s',
       ContractV1.UpdateCoordGeoCache "testId" "new value" (7, 10) (7, 10) stub_v1
       = (None, s')
       /\ holds s' "testId" (ContractV1.GeoCache.mk "" (7, 10) (7, 10)).
Proof.
  assert (Hg : get_err stub_v1 "testId" = None) by reflexivity.
  assert (Hp : put_err stub_v1 "testId" = None) by reflexivity.
  split; [exact Hg|]. split; [exact bound_v1|]. split; [exact Hp|].
  exact (UpdateCoordGeoCache_v1_loses_value stub_v1 "testId" _ "new value" (7, 10)
           (7, 10) Hg bound_v1 Hp).
Defined.

(** X19 at work: [testId] deleted, then deleted again. *)
Lemma DeleteGeoCache_v1_open_witness :
  get_err stub_v1 "testId" = None
  /\ state stub_v1 !! "testId"
     = Some (json_Marshal (ContractV1.GeoCache.mk "some value" (5, 10) (5, 10)))
  /\ del_err stub_v1 "testId" = None
  /\ exists s',
       ContractV1.DeleteGeoCache "testId" stub_v1 = (None, s')
       /\ ContractV1.DeleteGeoCache "testId" s'
          = (Some "The asset testId does not exist", s').
Proof.
  assert (Hg : get_err stub_v1 "testId" = None) by reflexivity.
  assert (Hd : del_err stub_v1 "testId" = None) by reflexivity.
  split; [exact Hg|]. split; [exact bound_v1|]. split; [exact Hd|].
  destruct (DeleteGeoCache_v1_open stub_v1 "testId" _ Hg bound_v1 Hd)
    as (s' & Hrun & _ & _ & Hagain).
  exists s'. split; [exact Hrun | exact Hagain].
Defined.
